(** * vmmig_bench: the Prometheus exporter for OpenShift Virtualization

    A shallow embedding of [cmd/start.go] (the [start] command, its polling
    goroutine and the three extraction routines) and the properties its
    specification states about them.

    The program is glue around library calls.  The embedding keeps the glue
    as written and takes the libraries in two ways:

    - what a library call computes from data the program does not control
      (the parse of a URL, an HTTP round trip, a JSON decode, the parse of a
      timestamp, a registration) is a field of the class [Runtime]: every
      theorem holds for every runtime;
    - what the program computes with library values ([time.Time.Sub],
      [time.Duration.Seconds], [strings.Split], [fmt.Errorf], a gauge's
      [Set]) is defined here, after the library's documentation.

    A [float64] is held as the rational it stands for ([Q]); rounding to the
    nearest double is not modelled.  Label values are Rocq strings, taken to
    be valid UTF-8 (client_golang panics on a label value that is not). *)

From Stdlib Require Import ZArith QArith String Ascii List Lia.
From stdpp Require Import gmap strings list pretty.

Local Open Scope Z_scope.

(** Go's [error] interface, held as the text [Error()] returns; [nil] is
    [None] in an [option error]. *)
Definition error := string.

(** ** package time *)
Module time.

(** [type Duration int64]: a count of nanoseconds. *)
Definition Duration := Z.

Definition Nanosecond : Duration := 1.
Definition Second : Duration := 1000000000.
Definition minDuration : Duration := - 2 ^ 63.
Definition maxDuration : Duration := 2 ^ 63 - 1.

(** Two's complement wrap-around of an [int64] computation. *)
Definition wrap64 (z : Z) : Z := (z + 2 ^ 63) mod 2 ^ 64 - 2 ^ 63.

(** An instant: nanoseconds since the Unix epoch (unbounded, as the wall
    seconds of a [time.Time] reach far beyond what a [Duration] holds),
    and the zone offset the value was written with, east of UTC in
    seconds.  A parsed time carries no monotonic clock reading. *)
Record Time := mkTime { unixNano : Z; zone : Z }.

Definition Before (t u : Time) : bool := unixNano t <? unixNano u.
Definition Equal (t u : Time) : bool := unixNano t =? unixNano u.
Definition Add (t : Time) (d : Duration) : Time :=
  mkTime (unixNano t + d) (zone t).

(** [func (t Time) Sub(u Time) Duration]: "If the result exceeds the
    maximum (or minimum) value that can be stored in a Duration, the
    maximum (or minimum) duration will be returned."

    d := Duration(t.sec()-u.sec())*Second + Duration(t.nsec()-u.nsec())
    switch {
    case u.Add(d).Equal(t): return d
    case t.Before(u):       return minDuration
    default:                return maxDuration
    } *)
Definition Sub (t u : Time) : Duration :=
  let d := wrap64 (unixNano t - unixNano u) in
  if Equal (Add u d) t then d
  else if Before t u then minDuration
  else maxDuration.

(** [func (d Duration) Seconds() float64]:
    sec := d / Second; nsec := d % Second
    return float64(sec) + float64(nsec)/1e9
    ([/] and [%] truncate toward zero). *)
Definition Seconds (d : Duration) : Q :=
  (inject_Z (Z.quot d Second) + (Z.rem d Second # 1000000000))%Q.

End time.

(** ** package fmt *)
Module fmt.

(** An operand of a formatting verb. *)
Inductive arg :=
| S (s : string)            (* %s of a string *)
| D (d : Z)                 (* %d *)
| F (f : Q)                 (* %f *)
| V (l : list string)       (* %v of a []string *)
| E (e : error)             (* %v of an error *)
| T (t : time.Time).        (* %s of a time.Time *)

(** What one call leaves on standard output.  A [Printf] is kept as its
    format (the source's literal, escapes unexpanded) and its operands,
    which determine the text written. *)
Inductive line :=
| Println (s : string)
| Printf (format : string) (args : list arg)
| Usage.                    (* cmd.Usage(): cobra's help text of [start] *)

(** [fmt.Errorf(prefix + "%d", d)], the one shape the program uses. *)
Definition Errorf_d (prefix : string) (d : Z) : error :=
  prefix +:+ pretty d.

End fmt.

(** ** package strings *)
Module strings.

(** [strings.Split(s, sep)] for a one-byte separator: the substrings
    between separators, empty ones included; [Split("", sep)] is [[""]]. *)
Fixpoint Split (s : string) (sep : ascii) : list string :=
  match s with
  | EmptyString => [EmptyString]
  | String c rest =>
      if Ascii.eqb c sep then EmptyString :: Split rest sep
      else match Split rest sep with
           | [] => [String c EmptyString]
           | w :: ws => String c w :: ws
           end
  end.

End strings.

(** ** package net/http *)
Module http.

Definition StatusOK : Z := 200.

(** A request: its method, its URL (as [req.URL.String()] prints it) and
    its header. *)
Record Request := mkRequest {
  Method : string;
  URL : string;
  Header : gmap string string
}.

Definition Header_Set (key value : string) (req : Request) : Request :=
  mkRequest (Method req) (URL req) (<[key := value]> (Header req)).

(** A response: its status code, and what [io.ReadAll(resp.Body)]
    returns. *)
Record Response (Bytes : Type) := mkResponse {
  StatusCode : Z;
  Body : error + Bytes
}.
Arguments mkResponse {Bytes} _ _.
Arguments StatusCode {Bytes} _.
Arguments Body {Bytes} _.

End http.

(** ** package prometheus *)
Module prometheus.

(** The four collectors [start.go] declares. *)
Inductive Metric :=
| vmCount               (* virtual_machine_count_total   {namespace}                  *)
| vmStatus              (* virtual_machine_status        {namespace, vm_name, status} *)
| failedMigrations      (* failed_migrations_total       {namespace}                  *)
| migrationTime.        (* virtual_machine_migration_time_seconds {namespace, vm_name} *)

Inductive Kind := GaugeVec | CounterVec.

Definition kind (m : Metric) : Kind :=
  match m with
  | failedMigrations => CounterVec
  | _ => GaugeVec
  end.

Definition Name (m : Metric) : string :=
  match m with
  | vmCount => "virtual_machine_count_total"
  | vmStatus => "virtual_machine_status"
  | failedMigrations => "failed_migrations_total"
  | migrationTime => "virtual_machine_migration_time_seconds"
  end.

(** What [registry.Register(c)] returns: [nil], an
    [AlreadyRegisteredError] carrying the collector registered before, or
    another error. *)
Inductive RegisterResult :=
| Registered
| AlreadyRegisteredError (ExistingCollector : Kind)
| RegisterError (err : error).

Definition Kind_eqb (a b : Kind) : bool :=
  match a, b with
  | GaugeVec, GaugeVec | CounterVec, CounterVec => true
  | _, _ => false
  end.

End prometheus.

(** ** The decoded upstream documents *)

(** An element of [vmList.Items] in [exportVirtualMachineNamesAndStatuses]. *)
Record VirtualMachine := mkVM {
  Metadata_Name : string;
  Status_PrintableStatus : string
}.

(** An element of [migration.Status.Vms]. *)
Record MigrationVM := mkMigrationVM {
  Name : string;
  Started : string;
  Completed : string
}.

(** An element of [migrations.Items]. *)
Record Migration := mkMigration {
  Status_Namespace : string;
  Status_Vms : list MigrationVM
}.

(** ** The libraries and the world behind them *)
Class Runtime := {
  (** the bytes of a response body *)
  Bytes : Type;
  (** [url.Parse], as [http.NewRequest] calls it: an error, or the URL as
      [String()] prints it *)
  url_Parse : string -> error + string;
  (** [client.Do(req)] for the [n]-th round trip the process makes *)
  client_Do : nat -> http.Request -> error + http.Response Bytes;
  (** [json.Unmarshal] into [struct { Items []struct{} }] *)
  json_Unmarshal_count : Bytes -> error + list unit;
  (** [json.Unmarshal] into the VM list of the names-and-statuses routine *)
  json_Unmarshal_vmList : Bytes -> error + list VirtualMachine;
  (** [json.Unmarshal] into the migrations document *)
  json_Unmarshal_migrations : Bytes -> error + list Migration;
  (** [time.Parse(time.RFC3339, value)] *)
  time_Parse_RFC3339 : string -> error + time.Time;
  (** [registry.Register] on the registry [startCmd] creates *)
  registry_Register : prometheus.Metric -> prometheus.RegisterResult;
  (** [http.ListenAndServe(":8080", nil)]: the error it returns, or [None]
      when it serves until the process is killed *)
  http_ListenAndServe : option error
}.


(** ** The process state *)

(** The extraction routines, for the ghost record of calls. *)
Inductive Routine :=
| VirtualMachineCount
| VirtualMachineNamesAndStatuses
| VirtualMachineMigrationTime.

(** What the polling goroutine did, in order.  The program keeps no such
    record: it is ghost state, written by [called], [WithLabelValues_Set]
    and [Sleep] and read by nothing. *)
Inductive Event :=
| EvCall (f : Routine) (namespace : option string)
| EvSet (m : prometheus.Metric) (labelValues : list string) (value : Q)
| EvSleep (d : time.Duration).

(** The package-level collectors (label values to sample value), standard
    output, the number of HTTP round trips made so far, and the ghost
    trace. *)
Record State := mkState {
  vmCountMetric : gmap (list string) Q;
  vmStatusMetric : gmap (list string) Q;
  failedMigrationsMetric : gmap (list string) Q;
  migrationTimeMetric : gmap (list string) Q;
  stdout : list fmt.line;
  roundTrips : nat;
  trace : list Event
}.

(** The state [init()] leaves: every collector empty.  ([init()] also sets
    [sleepSeconds] and hands the four collectors to the default registry
    with [MustRegister]; [startCmd] serves a registry of its own.) *)
Definition initial : State := mkState ∅ ∅ ∅ ∅ [] 0 [].

Definition series (m : prometheus.Metric) (s : State) : gmap (list string) Q :=
  match m with
  | prometheus.vmCount => vmCountMetric s
  | prometheus.vmStatus => vmStatusMetric s
  | prometheus.failedMigrations => failedMigrationsMetric s
  | prometheus.migrationTime => migrationTimeMetric s
  end.

Definition with_series (m : prometheus.Metric) (v : gmap (list string) Q)
    (s : State) : State :=
  match m with
  | prometheus.vmCount =>
      mkState v (vmStatusMetric s) (failedMigrationsMetric s)
        (migrationTimeMetric s) (stdout s) (roundTrips s) (trace s)
  | prometheus.vmStatus =>
      mkState (vmCountMetric s) v (failedMigrationsMetric s)
        (migrationTimeMetric s) (stdout s) (roundTrips s) (trace s)
  | prometheus.failedMigrations =>
      mkState (vmCountMetric s) (vmStatusMetric s) v
        (migrationTimeMetric s) (stdout s) (roundTrips s) (trace s)
  | prometheus.migrationTime =>
      mkState (vmCountMetric s) (vmStatusMetric s) (failedMigrationsMetric s)
        v (stdout s) (roundTrips s) (trace s)
  end.

Definition with_stdout (out : list fmt.line) (s : State) : State :=
  mkState (vmCountMetric s) (vmStatusMetric s) (failedMigrationsMetric s)
    (migrationTimeMetric s) out (roundTrips s) (trace s).

Definition with_roundTrips (n : nat) (s : State) : State :=
  mkState (vmCountMetric s) (vmStatusMetric s) (failedMigrationsMetric s)
    (migrationTimeMetric s) (stdout s) n (trace s).

Definition with_trace (t : list Event) (s : State) : State :=
  mkState (vmCountMetric s) (vmStatusMetric s) (failedMigrationsMetric s)
    (migrationTimeMetric s) (stdout s) (roundTrips s) t.

(** ** Go computations: state passing, with panics *)

Inductive Result (A : Type) :=
| Returned (a : A)
| Panicked (reason : string).
Arguments Returned {A} _.
Arguments Panicked {A} _.

Definition Go (A : Type) : Type := State -> Result A * State.

Definition ret {A} (a : A) : Go A := fun s => (Returned a, s).

Definition bind {A B} (m : Go A) (k : A -> Go B) : Go B :=
  fun s =>
    match m s with
    | (Returned a, s') => k a s'
    | (Panicked r, s') => (Panicked r, s')
    end.

Definition panic {A} (reason : string) : Go A := fun s => (Panicked reason, s).

(** stdpp's monad notations: [x ← m; k] and [m;; k]. *)
#[global] Instance Go_ret : MRet Go := @ret.
#[global] Instance Go_bind : MBind Go := fun A B k m => bind m k.

(** [for _, x := range l { body }] *)
Fixpoint range {A} (l : list A) (body : A -> Go unit) : Go unit :=
  match l with
  | [] => ret tt
  | x :: rest => body x;; range rest body
  end.

Definition Printf (format : string) (args : list fmt.arg) : Go unit :=
  fun s => (Returned tt, with_stdout (stdout s ++ [fmt.Printf format args]) s).

Definition emit (e : Event) : Go unit :=
  fun s => (Returned tt, with_trace (trace s ++ [e]) s).

Definition called (f : Routine) (namespace : option string) : Go unit :=
  emit (EvCall f namespace).

(** [m.WithLabelValues(lvs...).Set(v)]: the series of [m] labelled [lvs]
    now reads [v]; it is created when absent. *)
Definition WithLabelValues_Set (m : prometheus.Metric) (lvs : list string)
    (v : Q) : Go unit :=
  fun s => (Returned tt,
            with_trace (trace s ++ [EvSet m lvs v])
              (with_series m (<[lvs := v]> (series m s)) s)).

(** [time.Sleep(d)] *)
Definition Sleep (d : time.Duration) : Go unit := emit (EvSleep d).

(** The dereference of a nil [*http.Request]. *)
Definition nil_dereference : string :=
  "runtime error: invalid memory address or nil pointer dereference".


(** ** cmd/start.go *)
Section Program.
Context {R : Runtime}.

(** [http.NewRequest(method, url, nil)]: [(nil, err)] when the URL does not
    parse, else a request with an empty header. *)
Definition NewRequest (method url : string) : error + http.Request :=
  match url_Parse url with
  | inl err => inl err
  | inr u => inr (http.mkRequest method u ∅)
  end.

(** [client.Do(req)] on a fresh [http.Client]. *)
Definition Do (req : http.Request) : Go (error + http.Response Bytes) :=
  fun s => (Returned (client_Do (roundTrips s) req),
            with_roundTrips (Datatypes.S (roundTrips s)) s).

(** [sleepSeconds = 15], set by [init()]. *)
Definition sleepSeconds : Z := 15.

(** [exportVirtualMachineCount] (lines 297-343).

    The request is printed (line 303) before [err] is looked at (line 304):
    when [http.NewRequest] fails, [req] is nil and [req.URL] panics, so the
    [return 0, err] of line 305 is never reached. *)
Definition exportVirtualMachineCount (serverURL token namespace : string)
    : Go (Z * option error) :=
  called VirtualMachineCount (Some namespace);;
  Printf "Fetching virtual machine count for namespace %s...\n" [fmt.S namespace];;
  match NewRequest "GET"
          (serverURL +:+ "/apis/kubevirt.io/v1/namespaces/" +:+ namespace
             +:+ "/virtualmachines") with
  | inl _ => panic nil_dereference
  | inr req =>
      Printf "Request URL: %s\n" [fmt.S (http.URL req)];;
      resp ← Do (http.Header_Set "Authorization" ("Bearer " +:+ token) req);
      match resp with
      | inl err => mret (0, Some err)
      | inr resp =>
          if negb (http.StatusCode resp =? http.StatusOK) then
            mret (0, Some (fmt.Errorf_d "unexpected status code: "
                             (http.StatusCode resp)))
          else
            match http.Body resp with
            | inl err => mret (0, Some err)
            | inr body =>
                match json_Unmarshal_count body with
                | inl err => mret (0, Some err)
                | inr Items =>
                    let count := Z.of_nat (length Items) in
                    WithLabelValues_Set prometheus.vmCount [namespace]
                      (inject_Z count);;
                    mret (count, None)
                end
            end
      end
  end.

(** [exportVirtualMachineNamesAndStatuses] (lines 239-294).  The local map
    [vmNamesAndStatuses] is written once per item, later items winning; it
    is returned and, in [startCmd], dropped. *)
Definition exportVirtualMachineNamesAndStatuses
    (serverURL token namespace : string)
    : Go (option (gmap string string) * option error) :=
  called VirtualMachineNamesAndStatuses (Some namespace);;
  Printf "Fetching virtual machine names and statuses for namespace %s...\n"
    [fmt.S namespace];;
  match NewRequest "GET"
          (serverURL +:+ "/apis/kubevirt.io/v1/namespaces/" +:+ namespace
             +:+ "/virtualmachines") with
  | inl _ => panic nil_dereference
  | inr req =>
      Printf "Request URL: %s\n" [fmt.S (http.URL req)];;
      resp ← Do (http.Header_Set "Authorization" ("Bearer " +:+ token) req);
      match resp with
      | inl err => mret (None, Some err)
      | inr resp =>
          if negb (http.StatusCode resp =? http.StatusOK) then
            mret (None, Some (fmt.Errorf_d "unexpected status code: "
                                (http.StatusCode resp)))
          else
            match http.Body resp with
            | inl err => mret (None, Some err)
            | inr body =>
                match json_Unmarshal_vmList body with
                | inl err => mret (None, Some err)
                | inr Items =>
                    range Items (fun vm =>
                      WithLabelValues_Set prometheus.vmStatus
                        [namespace; Metadata_Name vm; Status_PrintableStatus vm]
                        1%Q);;
                    mret (Some (foldl (fun m vm =>
                                   <[Metadata_Name vm := Status_PrintableStatus vm]> m)
                                  ∅ Items),
                          None)
                end
            end
      end
  end.

(** The body of the inner loop of [exportVirtualMachineMigrationTime]
    (lines 207-230); a [continue] ends the turn. *)
Definition migrationTimeOf (namespace : string) (vm : MigrationVM) : Go unit :=
  match time_Parse_RFC3339 (Started vm) with
  | inl err =>
      Printf "Error parsing start time for VM %s: %v\n" [fmt.S (Name vm); fmt.E err]
  | inr started =>
      Printf "VM %s started at: %s\n" [fmt.S (Name vm); fmt.T started];;
      match time_Parse_RFC3339 (Completed vm) with
      | inl err =>
          Printf "Error parsing completion time for VM %s: %v\n"
            [fmt.S (Name vm); fmt.E err]
      | inr completed =>
          Printf "VM %s completed at: %s\n" [fmt.S (Name vm); fmt.T completed];;
          let duration := time.Seconds (time.Sub completed started) in
          Printf "VM %s migration duration: %f seconds\n"
            [fmt.S (Name vm); fmt.F duration];;
          WithLabelValues_Set prometheus.migrationTime [namespace; Name vm] duration
      end
  end.

(** [exportVirtualMachineMigrationTime] (lines 154-237).  As in the other
    two routines the request is printed (line 159) before [err] is looked at
    (line 161). *)
Definition exportVirtualMachineMigrationTime (serverURL token : string)
    : Go (bool * option error) :=
  called VirtualMachineMigrationTime None;;
  match NewRequest "GET"
          (serverURL +:+ "/apis/forklift.konveyor.io/v1beta1/migrations") with
  | inl _ => panic nil_dereference
  | inr req =>
      Printf "Request URL: %s\n" [fmt.S (http.URL req)];;
      resp ← Do (http.Header_Set "Authorization" ("Bearer " +:+ token) req);
      match resp with
      | inl err => mret (false, Some err)
      | inr resp =>
          Printf "Response status code when calling API for migrations: %d\n"
            [fmt.D (http.StatusCode resp)];;
          if negb (http.StatusCode resp =? http.StatusOK) then
            mret (false, Some (fmt.Errorf_d "unexpected status code: "
                                 (http.StatusCode resp)))
          else
            match http.Body resp with
            | inl err => mret (false, Some err)
            | inr body =>
                match json_Unmarshal_migrations body with
                | inl err => mret (false, Some err)
                | inr Items =>
                    range Items (fun migration =>
                      range (Status_Vms migration)
                        (migrationTimeOf (Status_Namespace migration)));;
                    mret (true, None)
                end
            end
      end
  end.

(** One turn of the goroutine's [for { ... }] (lines 124-130); the values
    the routines return are dropped. *)
Definition cycle (serverURL token : string) (namespaceList : list string)
    : Go unit :=
  range namespaceList (fun namespace =>
    exportVirtualMachineCount serverURL token namespace;;
    exportVirtualMachineNamesAndStatuses serverURL token namespace;;
    mret tt);;
  exportVirtualMachineMigrationTime serverURL token;;
  Sleep (time.wrap64 (sleepSeconds * time.Second)).

(** The first [n] turns of the goroutine (lines 122-132). *)
Fixpoint poll (n : nat) (serverURL token : string) (namespaceList : list string)
    : Go unit :=
  match n with
  | O => mret tt
  | Datatypes.S n =>
      cycle serverURL token namespaceList;;
      poll n serverURL token namespaceList
  end.

(** How the main goroutine of [start] ends. *)
Inductive Ending :=
| Exit (code : Z)             (* os.Exit(code) *)
| Crash (reason : string)     (* an unrecovered panic *)
| Serving.                    (* blocked in http.ListenAndServe *)

(** A run of [startCmd.Run]: what the main goroutine printed, the
    collectors it added to the registry it serves on [/metrics], the
    namespace list the polling goroutine was started with (if it was
    started), and how the main goroutine ended. *)
Record Start := mkStart {
  printed : list fmt.line;
  registry : list prometheus.Metric;
  poller : option (list string);
  ending : Ending
}.

(** One of the four registration blocks (lines 85-119), for the collector
    [m] held in the variable [var]; [next] is the rest of [Run].  On an
    [AlreadyRegisteredError] the variable is rebound to the collector the
    registry holds, by a type assertion that panics on another type. *)
Definition register (m : prometheus.Metric) (var : string)
    (next : list fmt.line -> list prometheus.Metric -> Start)
    (out : list fmt.line) (reg : list prometheus.Metric) : Start :=
  match registry_Register m with
  | prometheus.Registered => next out (reg ++ [m])
  | prometheus.AlreadyRegisteredError ExistingCollector =>
      if prometheus.Kind_eqb ExistingCollector (prometheus.kind m)
      then next out reg
      else mkStart out reg None (Crash "interface conversion")
  | prometheus.RegisterError err =>
      mkStart (out ++ [fmt.Printf ("Error registering " +:+ var +:+ ": %v\n")
                         [fmt.E err]])
        reg None (Exit 1)
  end.

(** [startCmd.Run] (lines 65-143). *)
Definition startCmd (token serverURL namespaces : string) : Start :=
  if String.eqb token "" || String.eqb serverURL "" || String.eqb namespaces ""
  then
    mkStart
      [fmt.Println "Error: --token, --server-url, and --namespaces are required parameters";
       fmt.Usage]
      [] None (Exit 1)
  else
    let namespaceList := strings.Split namespaces "," in
    register prometheus.vmStatus "vmStatusMetric"
      (register prometheus.failedMigrations "failedMigrationsMetric"
         (register prometheus.migrationTime "migrationTimeMetric"
            (register prometheus.vmCount "vmCountMetric"
               (fun out reg =>
                  (* go func() { for { ... } }() *)
                  let out :=
                    out ++
                    [fmt.Println "Prometheus exporter initialized successfully.";
                     fmt.Println "Starting Prometheus exporter on :8080"] in
                  match http_ListenAndServe with
                  | Some err =>
                      mkStart
                        (out ++ [fmt.Printf "Error starting Prometheus exporter: %v\n"
                                   [fmt.E err]])
                        reg (Some namespaceList) (Exit 1)
                  | None => mkStart out reg (Some namespaceList) Serving
                  end))))
      [fmt.Println "========================================";
       fmt.Println "          vmmig_bench Exporter          ";
       fmt.Println "          Powered by DevOpsTribe.it     ";
       fmt.Println "========================================";
       fmt.Printf "start called with --token=*** --server-url=%s --namespaces=%v\n"
         [fmt.S serverURL; fmt.V namespaceList];
       fmt.Println "Starting Prometheus exporter...";
       fmt.Println "Initializing Prometheus exporter..."]
      [].

End Program.


(** ** A reference runtime

    One runtime, to run the program on concrete documents: bodies are JSON
    values, decoded as [encoding/json] decodes well-formed documents without
    repeated keys into the three anonymous structs of [start.go];
    timestamps are read in the strict profile of RFC 3339; a URL is refused
    when it holds a control byte or starts with a colon.  Go's parsers
    accept more than this (and [url.Parse] refuses more); the theorems
    below do not depend on it. *)
Module json.

#[local] Set Warnings "-register-all".

Inductive Value :=
| Null
| Bool (b : bool)
| Number (n : Z)
| Str (s : string)
| Arr (elements : list Value)
| Obj (members : list (string * Value)).

Definition lower (c : ascii) : ascii :=
  let n := nat_of_ascii c in
  if ((65 <=? n) && (n <=? 90))%nat then ascii_of_nat (n + 32) else c.

Fixpoint fold (s : string) : string :=
  match s with
  | EmptyString => EmptyString
  | String c rest => String (lower c) (fold rest)
  end.

(** The member a struct field tagged [key] is read from: names match
    without regard to case, the last match wins. *)
Fixpoint member (key : string) (members : list (string * Value)) : option Value :=
  match members with
  | [] => None
  | (k, v) :: rest =>
      match member key rest with
      | Some v' => Some v'
      | None => if String.eqb (fold k) (fold key) then Some v else None
      end
  end.

Definition mismatch (what : string) : error :=
  "json: cannot unmarshal value into Go value of type " +:+ what.

(** A missing member and [null] leave the zero value. *)
Definition string_of (v : option Value) : error + string :=
  match v with
  | None | Some Null => inr EmptyString
  | Some (Str s) => inr s
  | Some _ => inl (mismatch "string")
  end.

Definition struct_of (v : option Value) : error + list (string * Value) :=
  match v with
  | None | Some Null => inr []
  | Some (Obj members) => inr members
  | Some _ => inl (mismatch "struct")
  end.

Definition slice_of (v : option Value) : error + list Value :=
  match v with
  | None | Some Null => inr []
  | Some (Arr elements) => inr elements
  | Some _ => inl (mismatch "slice")
  end.

Definition and_then {A B} (r : error + A) (k : A -> error + B) : error + B :=
  match r with
  | inl err => inl err
  | inr a => k a
  end.

Fixpoint each {A B} (f : A -> error + B) (l : list A) : error + list B :=
  match l with
  | [] => inr []
  | x :: rest =>
      and_then (f x) (fun y => and_then (each f rest) (fun ys => inr (y :: ys)))
  end.

Definition syntax_error : error := "invalid character looking for beginning of value".

(** Into [struct { Items []struct{} `json:"items"` }]. *)
Definition Unmarshal_count (body : option Value) : error + list unit :=
  match body with
  | None => inl syntax_error
  | Some doc =>
      and_then (struct_of (Some doc)) (fun top =>
      and_then (slice_of (member "items" top)) (fun items =>
      each (fun item => and_then (struct_of (Some item)) (fun _ => inr tt)) items))
  end.

Definition vm_of (item : Value) : error + VirtualMachine :=
  and_then (struct_of (Some item)) (fun vm =>
  and_then (struct_of (member "metadata" vm)) (fun metadata =>
  and_then (string_of (member "name" metadata)) (fun name =>
  and_then (struct_of (member "status" vm)) (fun status =>
  and_then (string_of (member "printableStatus" status)) (fun printable =>
  inr (mkVM name printable)))))).

(** Into the VM list of [exportVirtualMachineNamesAndStatuses]. *)
Definition Unmarshal_vmList (body : option Value) : error + list VirtualMachine :=
  match body with
  | None => inl syntax_error
  | Some doc =>
      and_then (struct_of (Some doc)) (fun top =>
      and_then (slice_of (member "items" top)) (each vm_of))
  end.

Definition migrationVM_of (item : Value) : error + MigrationVM :=
  and_then (struct_of (Some item)) (fun vm =>
  and_then (string_of (member "name" vm)) (fun name =>
  and_then (string_of (member "started" vm)) (fun started =>
  and_then (string_of (member "completed" vm)) (fun completed =>
  inr (mkMigrationVM name started completed))))).

Definition migration_of (item : Value) : error + Migration :=
  and_then (struct_of (Some item)) (fun migration =>
  and_then (struct_of (member "status" migration)) (fun status =>
  and_then (string_of (member "namespace" status)) (fun namespace =>
  and_then (slice_of (member "vms" status)) (fun vms =>
  and_then (each migrationVM_of vms) (fun vms =>
  inr (mkMigration namespace vms)))))).

(** Into the migrations document of [exportVirtualMachineMigrationTime]. *)
Definition Unmarshal_migrations (body : option Value) : error + list Migration :=
  match body with
  | None => inl syntax_error
  | Some doc =>
      and_then (struct_of (Some doc)) (fun top =>
      and_then (slice_of (member "items" top)) (each migration_of))
  end.

End json.

Module rfc3339.

Definition digit (c : ascii) : option Z :=
  let n := Z.of_nat (nat_of_ascii c) in
  if (48 <=? n) && (n <=? 57) then Some (n - 48) else None.

(** Exactly [k] digits. *)
Fixpoint number (k : nat) (acc : Z) (s : string) : option (Z * string) :=
  match k with
  | O => Some (acc, s)
  | Datatypes.S k =>
      match s with
      | String c rest =>
          match digit c with
          | Some d => number k (10 * acc + d) rest
          | None => None
          end
      | EmptyString => None
      end
  end.

Definition expect (c : ascii) (s : string) : option string :=
  match s with
  | String c' rest => if Ascii.eqb c c' then Some rest else None
  | EmptyString => None
  end.

(** The digits of a fraction of a second, as nanoseconds: [k] more digits
    count, the rest are read and dropped. *)
Fixpoint nanoseconds (k : nat) (acc : Z) (s : string) : Z * string :=
  match s with
  | String c rest =>
      match digit c with
      | Some d =>
          match k with
          | O => nanoseconds O acc rest
          | Datatypes.S k' => nanoseconds k' (10 * acc + d) rest
          end
      | None => (acc * 10 ^ Z.of_nat k, s)
      end
  | EmptyString => (acc * 10 ^ Z.of_nat k, s)
  end.

Definition leap (y : Z) : bool :=
  (y mod 4 =? 0) && (negb (y mod 100 =? 0) || (y mod 400 =? 0)).

Definition daysIn (y m : Z) : Z :=
  if m =? 2 then (if leap y then 29 else 28)
  else if (m =? 4) || (m =? 6) || (m =? 9) || (m =? 11) then 30
  else 31.

(** Days from 1970-01-01 to the given day of the proleptic Gregorian
    calendar. *)
Definition daysFromCivil (y m d : Z) : Z :=
  let y := if m <=? 2 then y - 1 else y in
  let era := y / 400 in
  let yoe := y - era * 400 in
  let doy := (153 * (if 2 <? m then m - 3 else m + 9) + 2) / 5 + d - 1 in
  let doe := yoe * 365 + yoe / 4 - yoe / 100 + doy in
  era * 146097 + doe - 719468.

(** [Z] or a numeric offset [+hh:mm] / [-hh:mm], in seconds east of UTC;
    nothing may follow. *)
Definition zone (s : string) : option Z :=
  match s with
  | String c rest =>
      if Ascii.eqb c "Z" then (if String.eqb rest "" then Some 0 else None)
      else if Ascii.eqb c "+" || Ascii.eqb c "-" then
        '(hh, rest) ← number 2 0 rest;
        rest ← expect ":" rest;
        '(mm, rest) ← number 2 0 rest;
        if String.eqb rest "" && (hh <=? 23) && (mm <=? 59) then
          Some ((if Ascii.eqb c "-" then -1 else 1) * (hh * 3600 + mm * 60))
        else None
      else None
  | EmptyString => None
  end.

Definition parse (value : string) : option time.Time :=
  '(year, rest) ← number 4 0 value;
  rest ← expect "-" rest;
  '(month, rest) ← number 2 0 rest;
  rest ← expect "-" rest;
  '(day, rest) ← number 2 0 rest;
  rest ← expect "T" rest;
  '(hour, rest) ← number 2 0 rest;
  rest ← expect ":" rest;
  '(minute, rest) ← number 2 0 rest;
  rest ← expect ":" rest;
  '(second, rest) ← number 2 0 rest;
  '(nsec, rest) ← match rest with
                  | String "." (String c _ as digits) =>
                      match digit c with
                      | Some _ => Some (nanoseconds 9 0 digits)
                      | None => None
                      end
                  | _ => Some (0, rest)
                  end;
  offset ← zone rest;
  if (1 <=? month) && (month <=? 12) && (1 <=? day) && (day <=? daysIn year month)
     && (hour <=? 23) && (minute <=? 59) && (second <=? 59)
  then
    Some (time.mkTime
            ((daysFromCivil year month day * 86400 + hour * 3600 + minute * 60
              + second - offset) * 1000000000 + nsec)
            offset)
  else None.

Definition Parse (value : string) : error + time.Time :=
  match parse value with
  | Some t => inr t
  | None => inl ("parsing time: cannot parse as RFC3339: " +:+ value)
  end.

End rfc3339.

Module url.

Definition control (c : ascii) : bool :=
  let n := nat_of_ascii c in ((n <? 32) || (n =? 127))%nat.

Fixpoint hasControl (s : string) : bool :=
  match s with
  | EmptyString => false
  | String c rest => control c || hasControl rest
  end.

Definition Parse (rawURL : string) : error + string :=
  if hasControl rawURL then inl "net/url: invalid control character in URL"
  else match rawURL with
       | String ":" _ => inl "missing protocol scheme"
       | _ => inr rawURL
       end.

End url.

(** The reference runtime over an upstream, a registry and a listener. *)
Definition reference
    (upstream : nat -> http.Request -> error + http.Response (option json.Value))
    (registry : prometheus.Metric -> prometheus.RegisterResult)
    (listener : option error) : Runtime :=
  {| Bytes := option json.Value;
     url_Parse := url.Parse;
     client_Do := upstream;
     json_Unmarshal_count := json.Unmarshal_count;
     json_Unmarshal_vmList := json.Unmarshal_vmList;
     json_Unmarshal_migrations := json.Unmarshal_migrations;
     time_Parse_RFC3339 := rfc3339.Parse;
     registry_Register := registry;
     http_ListenAndServe := listener |}.


(** ** Reading a run *)

#[global] Instance Metric_eq_dec : EqDecision prometheus.Metric.
Proof. solve_decision. Defined.

(** What an event does to the series of the collector [m]: a [Set] on [m]
    writes one series, nothing else touches it. *)
Definition apply (m : prometheus.Metric) (g : gmap (list string) Q) (e : Event)
    : gmap (list string) Q :=
  match e with
  | EvSet m' lvs v => if decide (m' = m) then <[lvs := v]> g else g
  | _ => g
  end.

Definition replay (m : prometheus.Metric) (evs : list Event)
    (g : gmap (list string) Q) : gmap (list string) Q :=
  foldl (apply m) g evs.

(** The state [s] after the events [evs], the output [out] and [n] round
    trips. *)
Definition after (evs : list Event) (out : list fmt.line) (n : nat) (s : State)
    : State :=
  mkState
    (replay prometheus.vmCount evs (vmCountMetric s))
    (replay prometheus.vmStatus evs (vmStatusMetric s))
    (replay prometheus.failedMigrations evs (failedMigrationsMetric s))
    (replay prometheus.migrationTime evs (migrationTimeMetric s))
    (stdout s ++ out) (roundTrips s + n) (trace s ++ evs).

(** The duration a migration VM entry yields, when both its timestamps
    parse. *)
Definition durationOf {R : Runtime} (vm : MigrationVM) : option Q :=
  match time_Parse_RFC3339 (Started vm), time_Parse_RFC3339 (Completed vm) with
  | inr started, inr completed => Some (time.Seconds (time.Sub completed started))
  | _, _ => None
  end.

(** The gauge writes of one entry, of one migration, of a document. *)
Definition setsOf {R : Runtime} (namespace : string) (vm : MigrationVM)
    : list Event :=
  match durationOf vm with
  | Some d => [EvSet prometheus.migrationTime [namespace; Name vm] d]
  | None => []
  end.

Definition setsOfMigration {R : Runtime} (migration : Migration) : list Event :=
  flat_map (setsOf (Status_Namespace migration)) (Status_Vms migration).

Definition setsOfMigrations {R : Runtime} (Items : list Migration) : list Event :=
  flat_map setsOfMigration Items.

(** The ways a fetch fails after the request was built, and the error the
    routine is then left with: the transport's, one naming the status code,
    the body reader's, or the decoder's. *)
Inductive Fails {R : Runtime} {A : Type} (decode : Bytes -> error + A)
    : error + http.Response Bytes -> error -> Prop :=
| transport_fails err :
    Fails decode (inl err) err
| status_not_ok resp :
    http.StatusCode resp <> http.StatusOK ->
    Fails decode (inr resp)
      (fmt.Errorf_d "unexpected status code: " (http.StatusCode resp))
| read_fails resp err :
    http.StatusCode resp = http.StatusOK ->
    http.Body resp = inl err ->
    Fails decode (inr resp) err
| decode_fails resp body err :
    http.StatusCode resp = http.StatusOK ->
    http.Body resp = inr body ->
    decode body = inl err ->
    Fails decode (inr resp) err.

(** The request a routine sends for the parsed URL [u]. *)
Definition get (u token : string) : http.Request :=
  http.Header_Set "Authorization" ("Bearer " +:+ token) (http.mkRequest "GET" u ∅).

Definition virtualmachines (serverURL namespace : string) : string :=
  serverURL +:+ "/apis/kubevirt.io/v1/namespaces/" +:+ namespace +:+ "/virtualmachines".

Definition migrations (serverURL : string) : string :=
  serverURL +:+ "/apis/forklift.konveyor.io/v1beta1/migrations".

(** The operations that touch the process state: a call of a routine, or
    the first [n] turns of the polling goroutine. *)
Inductive Operation :=
| Count (serverURL token namespace : string)
| NamesAndStatuses (serverURL token namespace : string)
| MigrationTime (serverURL token : string)
| Poll (n : nat) (serverURL token : string) (namespaceList : list string).

Definition run {R : Runtime} (op : Operation) : Go unit :=
  match op with
  | Count serverURL token namespace =>
      exportVirtualMachineCount serverURL token namespace;; mret tt
  | NamesAndStatuses serverURL token namespace =>
      exportVirtualMachineNamesAndStatuses serverURL token namespace;; mret tt
  | MigrationTime serverURL token =>
      exportVirtualMachineMigrationTime serverURL token;; mret tt
  | Poll n serverURL token namespaceList => poll n serverURL token namespaceList
  end.

(** The events the program is seen to produce: a status series is only ever
    set to 1 and the failed-migrations counter is never written. *)
Definition allowed (e : Event) : Prop :=
  match e with
  | EvSet prometheus.vmStatus _ v => v = 1%Q
  | EvSet prometheus.failedMigrations _ _ => False
  | _ => True
  end.

(** The schedule of one turn of the polling loop, as the specification
    words it: per namespace the count then the status extraction, then the
    migration extraction once, then the sleep. *)
Definition schedule (namespaceList : list string) : list Event :=
  flat_map (fun namespace =>
              [EvCall VirtualMachineCount (Some namespace);
               EvCall VirtualMachineNamesAndStatuses (Some namespace)])
    namespaceList
  ++ [EvCall VirtualMachineMigrationTime None; EvSleep 15000000000].

(** The calls and sleeps of a trace, gauge writes left out. *)
Definition calls (evs : list Event) : list Event :=
  List.filter (fun e => match e with EvSet _ _ _ => false | _ => true end) evs.


(** Whatever the state, the result and the world, [c] leaves the state it
    found [after] some events that all satisfy [P]. *)
Definition emits {A} (P : Event -> Prop) (c : Go A) : Prop :=
  forall s, exists evs out n, (c s).2 = after evs out n s /\ Forall P evs.

(** The state after a sequence of operations, one after the other (a
    panic ends the process; the state it leaves is kept here). *)
Definition runAll {R : Runtime} (ops : list Operation) (s : State) : State :=
  foldl (fun s op => (run op s).2) s ops.

(** What [migrationTimeOf] prints for an entry. *)
Definition linesOf {R : Runtime} (vm : MigrationVM) : list fmt.line :=
  match time_Parse_RFC3339 (Started vm) with
  | inl err =>
      [fmt.Printf "Error parsing start time for VM %s: %v\n" [fmt.S (Name vm); fmt.E err]]
  | inr started =>
      fmt.Printf "VM %s started at: %s\n" [fmt.S (Name vm); fmt.T started]
      :: match time_Parse_RFC3339 (Completed vm) with
         | inl err =>
             [fmt.Printf "Error parsing completion time for VM %s: %v\n"
                [fmt.S (Name vm); fmt.E err]]
         | inr completed =>
             [fmt.Printf "VM %s completed at: %s\n" [fmt.S (Name vm); fmt.T completed];
              fmt.Printf "VM %s migration duration: %f seconds\n"
                [fmt.S (Name vm);
                 fmt.F (time.Seconds (time.Sub completed started))]]
         end
  end.


(** The registry takes the collector, or already holds one of its type. *)
Definition accepted {R : Runtime} (m : prometheus.Metric) : Prop :=
  registry_Register m = prometheus.Registered \/
  registry_Register m = prometheus.AlreadyRegisteredError (prometheus.kind m).

Definition registrationError (var : string) (err : error) : fmt.line :=
  fmt.Printf ("Error registering " +:+ var +:+ ": %v\n") [fmt.E err].

(** The line of the banner that shows the flags. *)
Definition banner (serverURL : string) (namespaceList : list string) : fmt.line :=
  fmt.Printf "start called with --token=*** --server-url=%s --namespaces=%v\n"
    [fmt.S serverURL; fmt.V namespaceList].

(** Whatever the state, [c] returns, leaving the state it found [after]
    events whose calls and sleeps are [cs]. *)
Definition proceeds {A} (cs : list Event) (c : Go A) : Prop :=
  forall s, exists a evs out n,
    c s = (Returned a, after evs out n s) /\ calls evs = cs.


(** ** Reading a run, further *)


(** The events a call of a routine can produce: the call itself, and the
    one shape of gauge write the routine's source holds. *)
Inductive Produces : Routine -> option string -> Event -> Prop :=
| produces_call f namespace :
    Produces f namespace (EvCall f namespace)
| produces_count namespace (n : nat) :
    Produces VirtualMachineCount (Some namespace)
      (EvSet prometheus.vmCount [namespace] (inject_Z (Z.of_nat n)))
| produces_status namespace name printableStatus :
    Produces VirtualMachineNamesAndStatuses (Some namespace)
      (EvSet prometheus.vmStatus [namespace; name; printableStatus] 1%Q)
| produces_duration namespace name (started completed : time.Time) :
    Produces VirtualMachineMigrationTime None
      (EvSet prometheus.migrationTime [namespace; name]
         (time.Seconds (time.Sub completed started))).

(** The events of the polling goroutine: those of its calls, and its
    sleeps. *)
Definition Produced (e : Event) : Prop :=
  (exists f namespace, Produces f namespace e) \/ (exists d, e = EvSleep d).

(** An event that writes no gauge. *)
Definition silent (e : Event) : Prop :=
  match e with
  | EvSet _ _ _ => False
  | _ => True
  end.



(** An upstream with nothing to give: every round trip fails in the
    transport or is answered with a status other than 200. *)
Definition unavailable {R : Runtime} : Prop :=
  forall (n : nat) (req : http.Request),
    match client_Do n req with
    | inl _ => True
    | inr resp => http.StatusCode resp <> http.StatusOK
    end.

(** The byte [c] occurs in [s]. *)
Fixpoint occurs (c : ascii) (s : string) : bool :=
  match s with
  | EmptyString => false
  | String c' rest => Ascii.eqb c' c || occurs c rest
  end.

(** The lines [startCmd] prints before it registers anything. *)
Definition greeting (serverURL : string) (namespaceList : list string)
    : list fmt.line :=
  [fmt.Println "========================================";
   fmt.Println "          vmmig_bench Exporter          ";
   fmt.Println "          Powered by DevOpsTribe.it     ";
   fmt.Println "========================================";
   banner serverURL namespaceList;
   fmt.Println "Starting Prometheus exporter...";
   fmt.Println "Initializing Prometheus exporter..."].


(** ** Clusters to run against *)
Module cluster.

Definition server : string := "https://api.migrationlab.devopstribe.it:6443".

Definition Reply : Type := error + http.Response (option json.Value).

Definition ok (doc : json.Value) : Reply :=
  inr (http.mkResponse 200 (inr (Some doc))).

Definition status (code : Z) : Reply :=
  inr (http.mkResponse code (inr None)).

(** An upstream that answers by URL, the same at every round trip and
    whatever the header; an unknown URL is a 404. *)
Fixpoint route (table : list (string * Reply)) (url : string) : Reply :=
  match table with
  | [] => status 404
  | (u, reply) :: rest => if String.eqb u url then reply else route rest url
  end.

Definition upstream (table : list (string * Reply))
    : nat -> http.Request -> Reply :=
  fun _ req => route table (http.URL req).

Definition fresh : prometheus.Metric -> prometheus.RegisterResult :=
  fun _ => prometheus.Registered.

Definition over (table : list (string * Reply)) : Runtime :=
  reference (upstream table) fresh None.

Definition items (l : list json.Value) : json.Value :=
  json.Obj [("items", json.Arr l)].

Definition vm (name printableStatus : string) : json.Value :=
  json.Obj [("metadata", json.Obj [("name", json.Str name)]);
            ("status", json.Obj [("printableStatus", json.Str printableStatus)])].

Definition migrated (name started completed : string) : json.Value :=
  json.Obj [("name", json.Str name);
            ("started", json.Str started);
            ("completed", json.Str completed)].

Definition migration (namespace : string) (vms : list json.Value) : json.Value :=
  json.Obj [("status", json.Obj [("namespace", json.Str namespace);
                                 ("vms", json.Arr vms)])].

(** The cluster of the README: [default] is empty, [migrationlab] runs
    [rocky9-esxi], and two migrations took 1043 and 999 seconds. *)
Definition readme_vms : json.Value := items [vm "rocky9-esxi" "Running"].

Definition readme_migrations : json.Value :=
  items [migration ""
           [migrated "centos-stream10-apricot-slug-73"
              "2025-05-20T10:00:00Z" "2025-05-20T10:17:23Z";
            migrated "rocky9-esxi"
              "2025-05-20T11:00:00+02:00" "2025-05-20T09:16:39Z"]].

Definition readme : list (string * Reply) :=
  [(virtualmachines server "default", ok (items []));
   (virtualmachines server "migrationlab", ok readme_vms);
   (migrations server, ok readme_migrations)].





(** A migration with an entry still running (no completion time) between
    two finished ones. *)
Definition running_migrations : json.Value :=
  items [migration "migrationlab"
           [migrated "first" "2025-05-20T10:00:00Z" "2025-05-20T10:00:30Z";
            migrated "pending" "2025-05-20T10:00:00Z" "";
            migrated "last" "2025-05-20T10:00:00Z" "2025-05-20T10:01:00Z"]].

Definition running : list (string * Reply) :=
  [(migrations server, ok running_migrations)].

(** An upstream that is down: 503 for the VM lists, no connection for the
    migrations. *)
Definition down : list (string * Reply) :=
  [(virtualmachines server "default", status 503);
   (migrations server, inl "dial tcp: connect: connection refused")].






(** A listener that cannot bind its port. *)
Definition taken : option error := Some "listen tcp :8080: bind: address already in use".

End cluster.


(** * Properties *)

(** ** Durations *)











(** ** Runs *)

Lemma replay_app (m : prometheus.Metric) (e1 e2 : list Event) (g : gmap (list string) Q) :
  replay m (e1 ++ e2) g = replay m e2 (replay m e1 g).
Proof. unfold replay. apply foldl_app. Qed.

Lemma after_nil (s : State) : after [] [] 0 s = s.
Proof.
  destruct s. unfold after. cbn.
  rewrite !app_nil_r, Nat.add_0_r. reflexivity.
Qed.

Lemma after_after e1 o1 n1 e2 o2 n2 (s : State) :
  after e2 o2 n2 (after e1 o1 n1 s) = after (e1 ++ e2) (o1 ++ o2) (n1 + n2) s.
Proof.
  unfold after. cbn.
  rewrite !replay_app, <- !app_assoc, Nat.add_assoc. reflexivity.
Qed.

Lemma series_after (m : prometheus.Metric) evs out n (s : State) :
  series m (after evs out n s) = replay m evs (series m s).
Proof. destruct m; reflexivity. Qed.

(** Unfold the monad and the effects down to state passing. *)
Ltac go :=
  unfold mbind, mret, Go_bind, Go_ret, bind, ret, panic,
    Printf, called, Sleep, emit, WithLabelValues_Set, Do, NewRequest;
  cbn beta iota zeta.

Section Routines.
Context {R : Runtime}.


End Routines.


(** ** Every effect is an [after] *)

Lemma Printf_after format args (s : State) :
  Printf format args s = (Returned tt, after [] [fmt.Printf format args] 0 s).
Proof.
  destruct s. unfold Printf, after, with_stdout. cbn.
  rewrite app_nil_r, Nat.add_0_r. reflexivity.
Qed.

Lemma emit_after (e : Event) (s : State) :
  match e with EvSet _ _ _ => False | _ => True end ->
  emit e s = (Returned tt, after [e] [] 0 s).
Proof.
  intros He. destruct s. unfold emit, after, with_trace. cbn.
  rewrite app_nil_r, Nat.add_0_r. destruct e; [reflexivity | destruct He | reflexivity].
Qed.

Lemma Set_after (m : prometheus.Metric) lvs v (s : State) :
  WithLabelValues_Set m lvs v s = (Returned tt, after [EvSet m lvs v] [] 0 s).
Proof.
  destruct s, m; unfold WithLabelValues_Set, after, with_trace; cbn;
    rewrite app_nil_r, Nat.add_0_r; reflexivity.
Qed.

Lemma Do_after {R : Runtime} (req : http.Request) (s : State) :
  Do req s = (Returned (client_Do (roundTrips s) req), after [] [] 1 s).
Proof.
  destruct s. unfold Do, after, with_roundTrips. cbn.
  rewrite !app_nil_r, Nat.add_1_r. reflexivity.
Qed.

Lemma bind_after {A B} (c : Go A) (k : A -> Go B) (s : State) a e1 o1 n1 r e2 o2 n2 :
  c s = (Returned a, after e1 o1 n1 s) ->
  k a (after e1 o1 n1 s) = (r, after e2 o2 n2 (after e1 o1 n1 s)) ->
  (c ≫= k) s = (r, after (e1 ++ e2) (o1 ++ o2) (n1 + n2) s).
Proof.
  intros Hc Hk. unfold mbind, Go_bind, bind. rewrite Hc, Hk, after_after.
  reflexivity.
Qed.

(** ** What a computation may emit *)

Lemma emits_ret {A} (P : Event -> Prop) (a : A) : emits P (mret a).
Proof.
  intros s. exists [], [], 0%nat. split; [symmetry; apply after_nil | constructor].
Qed.

Lemma emits_panic {A} (P : Event -> Prop) reason : emits P (@panic A reason).
Proof.
  intros s. exists [], [], 0%nat. split; [symmetry; apply after_nil | constructor].
Qed.

Lemma emits_bind {A B} (P : Event -> Prop) (c : Go A) (k : A -> Go B) :
  emits P c -> (forall a, emits P (k a)) -> emits P (c ≫= k).
Proof.
  intros Hc Hk s. destruct (Hc s) as (e1 & o1 & n1 & Hs1 & HP1).
  unfold mbind, Go_bind, bind. destruct (c s) as [[a | reason] s1]; cbn in Hs1; subst s1.
  - destruct (Hk a (after e1 o1 n1 s)) as (e2 & o2 & n2 & Hs2 & HP2).
    exists (e1 ++ e2), (o1 ++ o2), (n1 + n2)%nat.
    rewrite Hs2, after_after. split; [reflexivity | apply Forall_app; auto].
  - exists e1, o1, n1. auto.
Qed.

Lemma emits_Printf (P : Event -> Prop) format args : emits P (Printf format args).
Proof.
  intros s. exists [], [fmt.Printf format args], 0%nat.
  rewrite Printf_after. split; [reflexivity | constructor].
Qed.

Lemma emits_called (P : Event -> Prop) f namespace :
  P (EvCall f namespace) -> emits P (called f namespace).
Proof.
  intros HP s. exists [EvCall f namespace], [], 0%nat.
  unfold called. rewrite emit_after by exact I. split; [reflexivity | repeat constructor; exact HP].
Qed.

Lemma emits_Sleep (P : Event -> Prop) d : P (EvSleep d) -> emits P (Sleep d).
Proof.
  intros HP s. exists [EvSleep d], [], 0%nat.
  unfold Sleep. rewrite emit_after by exact I. split; [reflexivity | repeat constructor; exact HP].
Qed.

Lemma emits_Set (P : Event -> Prop) m lvs v :
  P (EvSet m lvs v) -> emits P (WithLabelValues_Set m lvs v).
Proof.
  intros HP s. exists [EvSet m lvs v], [], 0%nat.
  rewrite Set_after. split; [reflexivity | repeat constructor; exact HP].
Qed.

Lemma emits_Do {R : Runtime} (P : Event -> Prop) req : emits P (Do req).
Proof.
  intros s. exists [], [], 1%nat. rewrite Do_after. split; [reflexivity | constructor].
Qed.

Lemma emits_range {A} (P : Event -> Prop) (l : list A) (body : A -> Go unit) :
  (forall x, emits P (body x)) -> emits P (range l body).
Proof.
  intros Hbody. induction l as [| x rest IH]; cbn [range].
  - apply emits_ret.
  - apply emits_bind; [apply Hbody | intros _; exact IH].
Qed.

(** Take a computation of the program apart, down to its effects. *)
Ltac emits_step :=
  first
    [ apply emits_ret
    | apply emits_panic
    | apply emits_Printf
    | apply emits_Do
    | apply emits_called
    | apply emits_Sleep
    | apply emits_Set
    | apply emits_range; intros ?
    | apply emits_bind; [| intros ?]
    | match goal with
      | |- emits _ (match ?x with _ => _ end) => destruct x
      | |- emits _ (if ?b then _ else _) => destruct b
      end ].

Section Emits.
Context {R : Runtime}.

Lemma count_emits_allowed serverURL token namespace :
  emits allowed (exportVirtualMachineCount serverURL token namespace).
Proof. unfold exportVirtualMachineCount. repeat emits_step; exact I. Qed.

Lemma namesAndStatuses_emits_allowed serverURL token namespace :
  emits allowed (exportVirtualMachineNamesAndStatuses serverURL token namespace).
Proof.
  unfold exportVirtualMachineNamesAndStatuses.
  repeat emits_step; first [exact I | reflexivity].
Qed.

Lemma migrationTime_emits_allowed serverURL token :
  emits allowed (exportVirtualMachineMigrationTime serverURL token).
Proof.
  unfold exportVirtualMachineMigrationTime, migrationTimeOf.
  repeat emits_step; exact I.
Qed.

Lemma cycle_emits_allowed serverURL token namespaceList :
  emits allowed (cycle serverURL token namespaceList).
Proof.
  unfold cycle. apply emits_bind; [| intros _; apply emits_bind; [| intros _]].
  - apply emits_range; intros namespace.
    apply emits_bind; [apply count_emits_allowed | intros _].
    apply emits_bind; [apply namesAndStatuses_emits_allowed | intros _].
    apply emits_ret.
  - apply migrationTime_emits_allowed.
  - apply emits_Sleep. exact I.
Qed.

Lemma poll_emits_allowed n serverURL token namespaceList :
  emits allowed (poll n serverURL token namespaceList).
Proof.
  induction n as [| n IH]; cbn [poll].
  - apply emits_ret.
  - apply emits_bind; [apply cycle_emits_allowed | intros _; exact IH].
Qed.

(** No operation emits anything but allowed events. *)
Lemma run_emits_allowed (op : Operation) : emits allowed (run op).
Proof.
  destruct op; cbn [run].
  - apply emits_bind; [apply count_emits_allowed | intros _; apply emits_ret].
  - apply emits_bind; [apply namesAndStatuses_emits_allowed | intros _; apply emits_ret].
  - apply emits_bind; [apply migrationTime_emits_allowed | intros _; apply emits_ret].
  - apply poll_emits_allowed.
Qed.

End Emits.


(** ** Replaying events on a collector *)

Lemma replay_cons (m : prometheus.Metric) (e : Event) (evs : list Event)
    (g : gmap (list string) Q) :
  replay m (e :: evs) g = replay m evs (apply m g e).
Proof. reflexivity. Qed.

(** A series no later event writes keeps its reading. *)
Lemma replay_untouched (m : prometheus.Metric) (evs : list Event)
    (g : gmap (list string) Q) (lvs : list string) :
  (forall v, EvSet m lvs v ∉ evs) -> replay m evs g !! lvs = g !! lvs.
Proof.
  revert g. induction evs as [| e evs IH]; intros g Hnot; [reflexivity |].
  rewrite replay_cons, IH.
  - destruct e as [| m' lvs' v |]; cbn [apply]; try reflexivity.
    destruct (decide (m' = m)) as [-> |]; [| reflexivity].
    apply lookup_insert_ne. intros ->. apply (Hnot v). left.
  - intros v Hin. apply (Hnot v). right. exact Hin.
Qed.


(** No event removes a series. *)
Lemma replay_keeps_series (m : prometheus.Metric) (evs : list Event)
    (g : gmap (list string) Q) (lvs : list string) :
  is_Some (g !! lvs) -> is_Some (replay m evs g !! lvs).
Proof.
  revert g. induction evs as [| e evs IH]; intros g Hsome; [exact Hsome |].
  rewrite replay_cons. apply IH.
  destruct e as [| m' lvs' v |]; cbn [apply]; try exact Hsome.
  destruct (decide (m' = m)); [| exact Hsome].
  destruct (decide (lvs' = lvs)) as [-> |].
  - rewrite lookup_insert_eq. eauto.
  - rewrite lookup_insert_ne by assumption. exact Hsome.
Qed.


(** Allowed events never touch the failed-migrations counter. *)
Lemma replay_failedMigrations (evs : list Event) (g : gmap (list string) Q) :
  Forall allowed evs -> replay prometheus.failedMigrations evs g = g.
Proof.
  intros Hall. revert g. induction Hall as [| e evs He _ IH]; intros g; [reflexivity |].
  rewrite replay_cons, IH.
  destruct e as [| m' lvs' v' |]; cbn [apply]; try reflexivity.
  destruct (decide (m' = prometheus.failedMigrations)) as [-> |]; [| reflexivity].
  destruct He.
Qed.

Lemma range_after {A} (body : A -> Go unit) (ev : A -> list Event)
    (o : A -> list fmt.line) (l : list A) :
  (forall x s, body x s = (Returned tt, after (ev x) (o x) 0 s)) ->
  forall s, range l body s = (Returned tt, after (flat_map ev l) (flat_map o l) 0 s).
Proof.
  intros Hbody. induction l as [| x rest IH]; intros s; cbn [range flat_map].
  - unfold mret, Go_ret, ret. rewrite after_nil. reflexivity.
  - apply (bind_after _ _ s tt _ _ 0%nat _ _ _ 0%nat (Hbody x s) (IH _)).
Qed.

Lemma ret_after {A} (a : A) (s : State) :
  (mret a : Go A) s = (Returned a, after [] [] 0 s).
Proof. rewrite after_nil. reflexivity. Qed.

Lemma called_after f namespace (s : State) :
  called f namespace s = (Returned tt, after [EvCall f namespace] [] 0 s).
Proof. apply emit_after. exact I. Qed.

Lemma Sleep_after d (s : State) :
  Sleep d s = (Returned tt, after [EvSleep d] [] 0 s).
Proof. apply emit_after. exact I. Qed.

Lemma roundTrips_after evs out n (s : State) :
  roundTrips (after evs out n s) = (roundTrips s + n)%nat.
Proof. reflexivity. Qed.

(** Run a computation one effect further. *)
Ltac run_step :=
  cbn beta;
  lazymatch goal with
  | |- (_ ≫= _) _ = _ => eapply bind_after
  | |- Printf _ _ _ = _ => apply Printf_after
  | |- called _ _ _ = _ => apply called_after
  | |- Sleep _ _ = _ => apply Sleep_after
  | |- WithLabelValues_Set _ _ _ _ = _ => apply Set_after
  | |- Do _ _ = _ => apply Do_after
  | |- mret _ _ = _ => apply ret_after
  end.

Section Runs.
Context {R : Runtime}.


End Runs.


(** What holds of a run after a registration block: it is enough that it
    holds of the rest of [Run], of the crash, and of the exit. *)
Lemma register_inv {R : Runtime} (P : Start -> Prop) (m : prometheus.Metric)
    (var : string) (next : list fmt.line -> list prometheus.Metric -> Start)
    (out : list fmt.line) (reg : list prometheus.Metric) :
  (forall reg',
      reg ⊆ reg' ->
      (registry_Register m = prometheus.Registered -> m ∈ reg') ->
      P (next out reg')) ->
  P (mkStart out reg None (Crash "interface conversion")) ->
  (forall err, P (mkStart (out ++ [registrationError var err]) reg None (Exit 1))) ->
  P (register m var next out reg).
Proof.
  intros Hnext Hcrash Hexit. unfold register.
  destruct (registry_Register m) as [| existing | err].
  - apply Hnext; [| intros _]; set_solver.
  - destruct (prometheus.Kind_eqb existing (prometheus.kind m)); [| exact Hcrash].
    apply Hnext; [set_solver | discriminate].
  - apply Hexit.
Qed.

Section Invariants.
Context {R : Runtime}.



Lemma allowed_never_failedMigrations (evs : list Event) :
  Forall allowed evs ->
  forall lvs v, EvSet prometheus.failedMigrations lvs v ∉ evs.
Proof.
  intros Hall lvs v Hin. rewrite Forall_forall in Hall. exact (Hall _ Hin).
Qed.


(** C9.  The counter [failed_migrations_total] is registered and never
    written.  (1) A start that gets as far as launching the polling
    goroutine has registered the counter, when the registry accepts it.
    (2) No operation changes the counter's series or emits a write to it.
    (3) After any sequence of operations from the start of the process the
    counter has no series at all. *)
Theorem failed_migrations_counter_is_never_written :
  (forall (token serverURL namespaces : string) (namespaceList : list string),
      registry_Register prometheus.failedMigrations = prometheus.Registered ->
      poller (startCmd token serverURL namespaces) = Some namespaceList ->
      prometheus.failedMigrations ∈ registry (startCmd token serverURL namespaces)) /\
  (forall (op : Operation) (s : State),
      failedMigrationsMetric (run op s).2 = failedMigrationsMetric s /\
      exists evs,
        trace (run op s).2 = trace s ++ evs /\
        forall lvs v, EvSet prometheus.failedMigrations lvs v ∉ evs) /\
  (forall ops : list Operation,
      failedMigrationsMetric (runAll ops initial) = ∅).
Proof.
  assert (Hop : forall (op : Operation) (s : State),
      failedMigrationsMetric (run op s).2 = failedMigrationsMetric s /\
      exists evs,
        trace (run op s).2 = trace s ++ evs /\
        forall lvs v, EvSet prometheus.failedMigrations lvs v ∉ evs).
  { intros op s. destruct (run_emits_allowed op s) as (evs & out & n & Hs' & Hall).
    rewrite Hs'. cbn [trace failedMigrationsMetric after]. split.
    - apply replay_failedMigrations, Hall.
    - exists evs. split; [reflexivity | apply allowed_never_failedMigrations, Hall]. }
  split; [| split].
  - clear Hop. intros token serverURL namespaces namespaceList Hreg. unfold startCmd.
    destruct (String.eqb token "" || String.eqb serverURL "" || String.eqb namespaces "");
      [discriminate |].
    cbn zeta.
    apply (register_inv
             (fun st => poller st = Some namespaceList ->
                        prometheus.failedMigrations ∈ registry st));
      [intros reg1 _ _ | discriminate | discriminate].
    apply (register_inv
             (fun st => poller st = Some namespaceList ->
                        prometheus.failedMigrations ∈ registry st));
      [intros reg2 _ Hin2 | discriminate | discriminate].
    apply (register_inv
             (fun st => poller st = Some namespaceList ->
                        prometheus.failedMigrations ∈ registry st));
      [intros reg3 Hsub3 _ | discriminate | discriminate].
    apply (register_inv
             (fun st => poller st = Some namespaceList ->
                        prometheus.failedMigrations ∈ registry st));
      [intros reg4 Hsub4 _ | discriminate | discriminate].
    destruct http_ListenAndServe; cbn [poller registry]; intros _;
      apply Hsub4, Hsub3, Hin2, Hreg.
  - exact Hop.
  - intros ops. unfold runAll.
    assert (Hinv : forall s,
               failedMigrationsMetric (foldl (fun s op => (run op s).2) s ops)
               = failedMigrationsMetric s).
    { induction ops as [| op ops IH]; intros s; [reflexivity |].
      cbn [foldl]. rewrite IH. apply Hop. }
    rewrite Hinv. reflexivity.
Qed.

End Invariants.


(** ** The migration routine, run *)

(** Prove [c s = (r, after E O N s)] by running [c] and comparing. *)
Ltac run_as :=
  lazymatch goal with
  | |- ?c ?s = (?r, after ?E ?O ?N ?s) =>
      let H := fresh in
      cut (exists evs out n,
              c s = (r, after evs out n s) /\ evs = E /\ out = O /\ n = N);
      [ intros (? & ? & ? & H & -> & -> & ->); exact H
      | eexists _, _, _; split ]
  end.

Section Migrations.
Context {R : Runtime}.

Lemma migrationTimeOf_after (namespace : string) (vm : MigrationVM) (s : State) :
  migrationTimeOf namespace vm s
  = (Returned tt, after (setsOf namespace vm) (linesOf vm) 0 s).
Proof.
  unfold migrationTimeOf, setsOf, durationOf, linesOf.
  destruct (time_Parse_RFC3339 (Started vm)) as [err | started].
  { apply Printf_after. }
  destruct (time_Parse_RFC3339 (Completed vm)) as [err | completed].
  - run_as; [run_step; run_step | auto].
  - run_as.
    + run_step; [run_step |]. run_step; [run_step |]. run_step; [run_step |].
      run_step.
    + cbn [app Nat.add]. auto.
Qed.

Lemma migrations_range_after (Items : list Migration) (s : State) :
  range Items (fun migration =>
    range (Status_Vms migration) (migrationTimeOf (Status_Namespace migration))) s
  = (Returned tt,
     after (setsOfMigrations Items)
       (flat_map (fun migration => flat_map linesOf (Status_Vms migration)) Items)
       0 s).
Proof.
  apply (range_after _ setsOfMigration
           (fun migration => flat_map linesOf (Status_Vms migration))).
  intros migration s0.
  apply (range_after _ (setsOf (Status_Namespace migration)) linesOf).
  apply migrationTimeOf_after.
Qed.

(** A fetched and decoded migrations document: the routine returns
    [(true, nil)] and its gauge writes are those of the entries whose two
    timestamps parse, in document order. *)
Lemma migrationTime_runs
    (serverURL token u : string) (s : State)
    (resp : http.Response Bytes) (body : Bytes) (Items : list Migration) :
  url_Parse (migrations serverURL) = inr u ->
  client_Do (roundTrips s) (get u token) = inr resp ->
  http.StatusCode resp = http.StatusOK ->
  http.Body resp = inr body ->
  json_Unmarshal_migrations body = inr Items ->
  exists out,
    exportVirtualMachineMigrationTime serverURL token s =
    (Returned (true, None),
     after (EvCall VirtualMachineMigrationTime None :: setsOfMigrations Items) out 1 s).
Proof.
  intros Hurl Hdo Hstatus Hbody Hdecode.
  cut (exists evs out n,
         exportVirtualMachineMigrationTime serverURL token s =
         (Returned (true, None), after evs out n s) /\
         evs = EvCall VirtualMachineMigrationTime None :: setsOfMigrations Items /\
         n = 1%nat).
  { intros (evs & out & n & Hrun & -> & ->). eauto. }
  eexists _, _, _. split.
  - unfold exportVirtualMachineMigrationTime.
    run_step; [run_step |].
    cbn beta. unfold NewRequest. fold (migrations serverURL).
    rewrite Hurl. cbn [http.URL].
    run_step; [run_step |]. run_step; [run_step |].
    fold (get u token). rewrite !roundTrips_after, !Nat.add_0_r, Hdo. cbn beta iota.
    run_step; [run_step |]. cbn beta.
    rewrite Hstatus. cbn [Z.eqb Pos.eqb negb http.StatusOK]. rewrite Hbody, Hdecode.
    run_step; [apply migrations_range_after | run_step].
  - cbn [app Nat.add]. rewrite app_nil_r. auto.
Qed.



End Migrations.


Section Durations.
Context {R : Runtime}.



(** C3.  When the migrations document is fetched and decoded, an entry
    whose [started] or [completed] does not parse yields no gauge write,
    and the routine goes on: it returns [(true, nil)], and its gauge writes
    and the gauge it leaves are exactly those of the same document without
    that entry, so every sibling entry whose timestamps parse has its series
    set as usual. *)
Theorem unparseable_entry_is_skipped
    (serverURL token u : string) (s : State)
    (resp : http.Response Bytes) (body : Bytes)
    (before rest : list Migration) (migration : Migration)
    (pre post : list MigrationVM) (vm : MigrationVM) :
  url_Parse (migrations serverURL) = inr u ->
  client_Do (roundTrips s) (get u token) = inr resp ->
  http.StatusCode resp = http.StatusOK ->
  http.Body resp = inr body ->
  json_Unmarshal_migrations body = inr (before ++ migration :: rest) ->
  Status_Vms migration = pre ++ vm :: post ->
  (exists err, time_Parse_RFC3339 (Started vm) = inl err) \/
  (exists err, time_Parse_RFC3339 (Completed vm) = inl err) ->
  let r := exportVirtualMachineMigrationTime serverURL token s in
  let siblings := mkMigration (Status_Namespace migration) (pre ++ post) in
  let writes := setsOfMigrations (before ++ siblings :: rest) in
  r.1 = Returned (true, None) /\
  setsOf (Status_Namespace migration) vm = [] /\
  trace r.2 = trace s ++ EvCall VirtualMachineMigrationTime None :: writes /\
  migrationTimeMetric r.2 = replay prometheus.migrationTime writes (migrationTimeMetric s) /\
  (forall (sibling : MigrationVM) (d : Q),
      sibling ∈ pre ++ post ->
      durationOf sibling = Some d ->
      EvSet prometheus.migrationTime [Status_Namespace migration; Name sibling] d
      ∈ trace r.2).
Proof.
  intros Hurl Hdo Hstatus Hbody Hdecode Hvms Hbad r siblings writes. subst r.
  destruct (migrationTime_runs _ _ _ _ _ _ _ Hurl Hdo Hstatus Hbody Hdecode)
    as [out Hrun].
  assert (Hnone : setsOf (Status_Namespace migration) vm = []).
  { unfold setsOf, durationOf.
    destruct Hbad as [[err Herr] | [err Herr]]; rewrite Herr; [reflexivity |].
    destruct (time_Parse_RFC3339 (Started vm)); reflexivity. }
  assert (Hsame : setsOfMigrations (before ++ migration :: rest) = writes).
  { subst writes. unfold setsOfMigrations. rewrite !flat_map_app. cbn [flat_map].
    f_equal. f_equal. unfold setsOfMigration, siblings. cbn [Status_Namespace Status_Vms].
    rewrite Hvms, !flat_map_app. cbn [flat_map]. rewrite Hnone. reflexivity. }
  rewrite Hrun, Hsame. cbn [fst snd trace migrationTimeMetric after].
  repeat split; try assumption.
  intros sibling d Hin Hd. apply elem_of_app. right. right.
  subst writes. unfold setsOfMigrations. rewrite flat_map_app. cbn [flat_map].
  apply elem_of_app. right. apply elem_of_app. left.
  unfold setsOfMigration, siblings. cbn [Status_Namespace Status_Vms].
  apply list_elem_of_In, in_flat_map. exists sibling. split.
  - apply list_elem_of_In. exact Hin.
  - unfold setsOf. rewrite Hd. left. reflexivity.
Qed.

End Durations.


(** ** Failed fetches *)

(** The error of a non-200 answer names the status code: two codes never
    give the same text. *)
Lemma Errorf_d_names_code (prefix : string) (c1 c2 : Z) :
  fmt.Errorf_d prefix c1 = fmt.Errorf_d prefix c2 -> c1 = c2.
Proof.
  unfold fmt.Errorf_d. intros Heq.
  apply (inj pretty), (inj (String.app prefix)). exact Heq.
Qed.

(** After [Fails], take the four ways a fetch fails one by one, each with
    what the routine then reads from the response. *)
Ltac fails_cases Hfails :=
  let Hreply := fresh "Hreply" in
  inversion Hfails as [ err' Hreply
                      | resp Hnot Hreply
                      | resp err' Hok Hread Hreply
                      | resp body err' Hok Hread Hdecode Hreply ];
  subst; try rewrite <- Hreply; cbn beta iota;
  [ idtac
  | destruct (Z.eqb_spec (http.StatusCode resp) http.StatusOK) as [Heq | _];
    [ destruct (Hnot Heq) | cbn [negb] ]
  | rewrite Hok; cbn [Z.eqb Pos.eqb negb http.StatusOK]; rewrite Hread
  | rewrite Hok; cbn [Z.eqb Pos.eqb negb http.StatusOK]; rewrite Hread, Hdecode ].

Section Failures.
Context {R : Runtime}.

(** C4.  An invocation of a routine whose request was built and whose
    fetch fails (the transport call fails, the answer is not a 200, the body
    cannot be read, or the JSON does not decode) returns the error, with the
    routine's zero value: for a non-200 answer the error reads "unexpected
    status code: " followed by the code, and names it.  It writes no metric:
    every series of every collector is as before, and the call is the only
    event of the invocation. *)
Theorem failed_fetch_returns_error_and_writes_nothing
    (serverURL token namespace u : string) (s : State) (err : error) :
  (url_Parse (virtualmachines serverURL namespace) = inr u ->
   Fails json_Unmarshal_count (client_Do (roundTrips s) (get u token)) err ->
   let r := exportVirtualMachineCount serverURL token namespace s in
   r.1 = Returned (0, Some err) /\
   (forall m, series m r.2 = series m s) /\
   trace r.2 = trace s ++ [EvCall VirtualMachineCount (Some namespace)]) /\
  (url_Parse (virtualmachines serverURL namespace) = inr u ->
   Fails json_Unmarshal_vmList (client_Do (roundTrips s) (get u token)) err ->
   let r := exportVirtualMachineNamesAndStatuses serverURL token namespace s in
   r.1 = Returned (None, Some err) /\
   (forall m, series m r.2 = series m s) /\
   trace r.2 = trace s ++ [EvCall VirtualMachineNamesAndStatuses (Some namespace)]) /\
  (url_Parse (migrations serverURL) = inr u ->
   Fails json_Unmarshal_migrations (client_Do (roundTrips s) (get u token)) err ->
   let r := exportVirtualMachineMigrationTime serverURL token s in
   r.1 = Returned (false, Some err) /\
   (forall m, series m r.2 = series m s) /\
   trace r.2 = trace s ++ [EvCall VirtualMachineMigrationTime None]) /\
  (forall (decode : Bytes -> error + unit) (resp : http.Response Bytes) (e : error),
      http.StatusCode resp <> http.StatusOK ->
      Fails decode (inr resp) e ->
      e = "unexpected status code: " +:+ pretty (http.StatusCode resp)) /\
  (forall c1 c2 : Z,
      fmt.Errorf_d "unexpected status code: " c1
      = fmt.Errorf_d "unexpected status code: " c2 -> c1 = c2).
Proof.
  split; [| split; [| split; [| split]]].
  - intros Hurl Hfails r. subst r. unfold exportVirtualMachineCount. go.
    fold (virtualmachines serverURL namespace). rewrite Hurl. go.
    fold (get u token). cbn [roundTrips with_stdout with_trace].
    fails_cases Hfails; cbn [fst snd trace];
      (split; [reflexivity | split; [intros []; reflexivity | reflexivity]]).
  - intros Hurl Hfails r. subst r. unfold exportVirtualMachineNamesAndStatuses. go.
    fold (virtualmachines serverURL namespace). rewrite Hurl. go.
    fold (get u token). cbn [roundTrips with_stdout with_trace].
    fails_cases Hfails; cbn [fst snd trace];
      (split; [reflexivity | split; [intros []; reflexivity | reflexivity]]).
  - intros Hurl Hfails r. subst r. unfold exportVirtualMachineMigrationTime. go.
    fold (migrations serverURL). rewrite Hurl. go.
    fold (get u token). cbn [roundTrips with_stdout with_trace].
    fails_cases Hfails; cbn [fst snd trace];
      (split; [reflexivity | split; [intros []; reflexivity | reflexivity]]).
  - intros decode resp e Hnot Hfails.
    inversion Hfails; subst; try contradiction. reflexivity.
  - apply Errorf_d_names_code.
Qed.

End Failures.


(** ** Startup *)

Section Startup.
Context {R : Runtime}.

Lemma flags_given (token serverURL namespaces : string) :
  token <> "" -> serverURL <> "" -> namespaces <> "" ->
  String.eqb token "" || String.eqb serverURL "" || String.eqb namespaces "" = false.
Proof.
  intros Ht Hs Hn. apply String.eqb_neq in Ht, Hs, Hn. rewrite Ht, Hs, Hn. reflexivity.
Qed.




End Startup.


(** ** The token *)



Section Token.
Context {R : Runtime}.
Variables token1 token2 : string.

(** The upstream answers the same whichever of the two tokens the request
    carries. *)
Hypothesis same_answers :
  forall (n : nat) (u : string), client_Do n (get u token1) = client_Do n (get u token2).






End Token.

Section TokenClaim.
Context {R : Runtime}.


End TokenClaim.


(** ** The polling loop *)

Lemma calls_app (e1 e2 : list Event) : calls (e1 ++ e2) = calls e1 ++ calls e2.
Proof. unfold calls. apply List.filter_app. Qed.

Lemma proceeds_ret {A} (a : A) : proceeds [] (mret a).
Proof. intros s. exists a, [], [], 0%nat. rewrite after_nil. auto. Qed.

Lemma proceeds_bind {A B} cs1 cs2 (c : Go A) (k : A -> Go B) :
  proceeds cs1 c -> (forall a, proceeds cs2 (k a)) -> proceeds (cs1 ++ cs2) (c ≫= k).
Proof.
  intros Hc Hk s. destruct (Hc s) as (a & e1 & o1 & n1 & H1 & <-).
  destruct (Hk a (after e1 o1 n1 s)) as (b & e2 & o2 & n2 & H2 & <-).
  exists b, (e1 ++ e2), (o1 ++ o2), (n1 + n2)%nat.
  split; [apply (bind_after _ _ _ _ _ _ _ _ _ _ _ H1 H2) | apply calls_app].
Qed.

Lemma quiet_bind {A B} (c : Go A) (k : A -> Go B) :
  proceeds [] c -> (forall a, proceeds [] (k a)) -> proceeds [] (c ≫= k).
Proof. apply (proceeds_bind [] []). Qed.

Lemma proceeds_Printf format args : proceeds [] (Printf format args).
Proof. intros s. eexists tt, [], _, _. split; [apply Printf_after | reflexivity]. Qed.

Lemma proceeds_Set m lvs v : proceeds [] (WithLabelValues_Set m lvs v).
Proof. intros s. eexists tt, _, _, _. split; [apply Set_after | reflexivity]. Qed.

Lemma proceeds_Do {R : Runtime} req : proceeds [] (Do req).
Proof. intros s. eexists _, [], _, _. split; [apply Do_after | reflexivity]. Qed.

Lemma proceeds_called f namespace : proceeds [EvCall f namespace] (called f namespace).
Proof. intros s. eexists tt, _, _, _. split; [apply called_after | reflexivity]. Qed.

Lemma proceeds_Sleep d : proceeds [EvSleep d] (Sleep d).
Proof. intros s. eexists tt, _, _, _. split; [apply Sleep_after | reflexivity]. Qed.

Lemma proceeds_range {A} (cs : A -> list Event) (l : list A) (body : A -> Go unit) :
  (forall x, x ∈ l -> proceeds (cs x) (body x)) ->
  proceeds (flat_map cs l) (range l body).
Proof.
  induction l as [| x rest IH]; intros Hbody; cbn [range flat_map].
  - apply proceeds_ret.
  - apply proceeds_bind; [apply Hbody; left | intros _].
    apply IH. intros y Hy. apply Hbody. right. exact Hy.
Qed.

Lemma quiet_range {A} (l : list A) (body : A -> Go unit) :
  (forall x, proceeds [] (body x)) -> proceeds [] (range l body).
Proof.
  intros Hbody. induction l as [| x rest IH]; cbn [range].
  - apply proceeds_ret.
  - apply quiet_bind; [apply Hbody | intros _; exact IH].
Qed.

Ltac quiet_step :=
  first
    [ apply proceeds_ret
    | apply proceeds_Printf
    | apply proceeds_Do
    | apply proceeds_Set
    | apply quiet_range; intros ?
    | apply quiet_bind; [| intros ?]
    | match goal with
      | |- proceeds _ (match ?x with _ => _ end) => destruct x
      | |- proceeds _ (if ?b then _ else _) => destruct b
      end ].

Section Loop.
Context {R : Runtime}.

Lemma count_proceeds serverURL token namespace u :
  url_Parse (virtualmachines serverURL namespace) = inr u ->
  proceeds [EvCall VirtualMachineCount (Some namespace)]
    (exportVirtualMachineCount serverURL token namespace).
Proof.
  intros Hurl. unfold exportVirtualMachineCount, NewRequest.
  fold (virtualmachines serverURL namespace). rewrite Hurl.
  apply (proceeds_bind [_] []); [apply proceeds_called | intros _].
  repeat quiet_step.
Qed.

Lemma namesAndStatuses_proceeds serverURL token namespace u :
  url_Parse (virtualmachines serverURL namespace) = inr u ->
  proceeds [EvCall VirtualMachineNamesAndStatuses (Some namespace)]
    (exportVirtualMachineNamesAndStatuses serverURL token namespace).
Proof.
  intros Hurl. unfold exportVirtualMachineNamesAndStatuses, NewRequest.
  fold (virtualmachines serverURL namespace). rewrite Hurl.
  apply (proceeds_bind [_] []); [apply proceeds_called | intros _].
  repeat quiet_step.
Qed.

Lemma migrationTime_proceeds serverURL token u :
  url_Parse (migrations serverURL) = inr u ->
  proceeds [EvCall VirtualMachineMigrationTime None]
    (exportVirtualMachineMigrationTime serverURL token).
Proof.
  intros Hurl. unfold exportVirtualMachineMigrationTime, NewRequest, migrationTimeOf.
  fold (migrations serverURL). rewrite Hurl.
  apply (proceeds_bind [_] []); [apply proceeds_called | intros _].
  repeat quiet_step.
Qed.

(** As long as every request can be built, a turn of the loop follows the
    schedule: per namespace, in list order, the count then the status
    extraction; then the migration extraction, once; then the sleep of 15
    seconds. *)
Lemma cycle_follows_schedule serverURL token namespaceList :
  (forall namespace, namespace ∈ namespaceList ->
     exists u, url_Parse (virtualmachines serverURL namespace) = inr u) ->
  (exists u, url_Parse (migrations serverURL) = inr u) ->
  proceeds (schedule namespaceList) (cycle serverURL token namespaceList).
Proof.
  intros Hvms [um Hum]. unfold cycle, schedule.
  apply proceeds_bind; [| intros _].
  - apply (proceeds_range
             (fun namespace =>
                [EvCall VirtualMachineCount (Some namespace);
                 EvCall VirtualMachineNamesAndStatuses (Some namespace)])).
    intros namespace Hin. destruct (Hvms namespace Hin) as [u Hu].
    apply (proceeds_bind [_] [_]); [apply (count_proceeds _ _ _ _ Hu) | intros _].
    apply (proceeds_bind [_] []); [apply (namesAndStatuses_proceeds _ _ _ _ Hu) | intros _].
    apply proceeds_ret.
  - apply (proceeds_bind [_] [_]); [apply (migrationTime_proceeds _ _ _ Hum) | intros _].
    apply proceeds_Sleep.
Qed.

(** And turn follows turn: the first [n] turns are [n] schedules. *)
Lemma poll_follows_schedule n serverURL token namespaceList :
  (forall namespace, namespace ∈ namespaceList ->
     exists u, url_Parse (virtualmachines serverURL namespace) = inr u) ->
  (exists u, url_Parse (migrations serverURL) = inr u) ->
  proceeds (concat (replicate n (schedule namespaceList)))
    (poll n serverURL token namespaceList).
Proof.
  intros Hvms Hm. induction n as [| n IH]; cbn [poll replicate concat].
  - apply proceeds_ret.
  - apply proceeds_bind; [apply cycle_follows_schedule; assumption | intros _; exact IH].
Qed.

End Loop.


(** * The properties, on clusters *)

(** ** The README *)

(** One turn against the cluster of the README leaves the samples the
    README shows. *)
Example readme_metrics :
  let r := poll (R := cluster.over cluster.readme) 1 cluster.server "xxx"
             ["default"; "migrationlab"] initial in
  r.1 = Returned tt /\
  map_to_list (vmCountMetric r.2) = [(["default"], 0%Q); (["migrationlab"], 1%Q)] /\
  map_to_list (vmStatusMetric r.2)
  = [(["migrationlab"; "rocky9-esxi"; "Running"], 1%Q)] /\
  migrationTimeMetric r.2 !! [""; "centos-stream10-apricot-slug-73"]
  = Some (1043000000000 # 1000000000)%Q /\
  migrationTimeMetric r.2 !! [""; "rocky9-esxi"] = Some (999000000000 # 1000000000)%Q /\
  failedMigrationsMetric r.2 = ∅ /\
  calls (trace r.2) = schedule ["default"; "migrationlab"].
Proof. vm_compute. repeat split; reflexivity. Qed.


(** The count looks at no item: a VM, an empty object and a [null] count
    for three. *)
Example count_of_any_three_items :
  json.Unmarshal_count
    (Some (cluster.items [cluster.vm "rocky9-esxi" "Stopped"; json.Obj []; json.Null]))
  = inr [tt; tt; tt].
Proof. reflexivity. Qed.


(** C9 on the README: the counter is registered, and a turn of the loop
    leaves it without a series. *)
Lemma readme_failed_migrations :
  prometheus.failedMigrations
  ∈ registry (startCmd (R := cluster.over cluster.readme)
                "xxx" cluster.server "migrationlab,default") /\
  failedMigrationsMetric
    (run (R := cluster.over cluster.readme)
       (Poll 1 cluster.server "xxx" ["migrationlab"; "default"]) initial).2
  = ∅.
Proof.
  destruct (failed_migrations_counter_is_never_written
              (R := cluster.over cluster.readme))
    as (Hregistered & Hkept & _).
  split.
  - apply (Hregistered "xxx" cluster.server "migrationlab,default"
             ["migrationlab"; "default"] eq_refl eq_refl).
  - apply (Hkept (Poll 1 cluster.server "xxx" ["migrationlab"; "default"]) initial).
Defined.

(** ** Migration durations *)





(** C3 on a migration with an entry still running: the entries around it
    have their series set, to 30 and 60 seconds, and it has none. *)
Lemma running_entry_is_skipped :
  let r := exportVirtualMachineMigrationTime (R := cluster.over cluster.running)
             cluster.server "xxx" initial in
  r.1 = Returned (true, None) /\
  trace r.2
  = [EvCall VirtualMachineMigrationTime None;
     EvSet prometheus.migrationTime ["migrationlab"; "first"]
       (30000000000 # 1000000000);
     EvSet prometheus.migrationTime ["migrationlab"; "last"]
       (60000000000 # 1000000000)].
Proof.
  destruct (unparseable_entry_is_skipped (R := cluster.over cluster.running)
              cluster.server "xxx" (migrations cluster.server) initial
              (http.mkResponse 200 (inr (Some cluster.running_migrations)))
              (Some cluster.running_migrations)
              []
              []
              (mkMigration "migrationlab"
                 [mkMigrationVM "first" "2025-05-20T10:00:00Z" "2025-05-20T10:00:30Z";
                  mkMigrationVM "pending" "2025-05-20T10:00:00Z" "";
                  mkMigrationVM "last" "2025-05-20T10:00:00Z" "2025-05-20T10:01:00Z"])
              [mkMigrationVM "first" "2025-05-20T10:00:00Z" "2025-05-20T10:00:30Z"]
              [mkMigrationVM "last" "2025-05-20T10:00:00Z" "2025-05-20T10:01:00Z"]
              (mkMigrationVM "pending" "2025-05-20T10:00:00Z" "")
              eq_refl eq_refl eq_refl eq_refl eq_refl eq_refl
              (or_intror (ex_intro _ _ eq_refl)))
    as (Hret & _ & Htrace & _).
  split; [exact Hret | exact Htrace].
Defined.

(** ** Failures *)

(** C4 on an upstream that is down: a 503 for the VM list and a refused
    connection for the migrations each come back as the error, and nothing
    is written. *)
Lemma down_cluster_writes_nothing :
  let count := exportVirtualMachineCount (R := cluster.over cluster.down)
                 cluster.server "xxx" "default" initial in
  let time := exportVirtualMachineMigrationTime (R := cluster.over cluster.down)
                cluster.server "xxx" initial in
  (count.1 = Returned (0, Some "unexpected status code: 503") /\
   trace count.2 = [EvCall VirtualMachineCount (Some "default")]) /\
  (time.1 = Returned (false, Some "dial tcp: connect: connection refused") /\
   trace time.2 = [EvCall VirtualMachineMigrationTime None]).
Proof.
  split.
  - destruct (failed_fetch_returns_error_and_writes_nothing
                (R := cluster.over cluster.down)
                cluster.server "xxx" "default"
                (virtualmachines cluster.server "default") initial
                "unexpected status code: 503")
      as (Hcount & _).
    destruct (Hcount eq_refl
                (status_not_ok (R := cluster.over cluster.down) _
                   (http.mkResponse 503 (inr None)) ltac:(discriminate)))
      as (Hret & _ & Htrace).
    split; [exact Hret | exact Htrace].
  - destruct (failed_fetch_returns_error_and_writes_nothing
                (R := cluster.over cluster.down)
                cluster.server "xxx" "default"
                (migrations cluster.server) initial
                "dial tcp: connect: connection refused")
      as (_ & _ & Htime & _).
    destruct (Htime eq_refl
                (transport_fails (R := cluster.over cluster.down) _ _))
      as (Hret & _ & Htrace).
    split; [exact Hret | exact Htrace].
Defined.

(** ** Startup *)



(** ** The loop *)

(** C6 fails on the code.  The server URL [":"] has no scheme, so
    [http.NewRequest] returns [(nil, err)]; the count routine, called for
    the first namespace, dereferences the nil request when it prints the
    URL (line 303, before the error check of line 304) and panics.  The
    panic is not recovered: the status and the migration extraction never
    run, there is no sleep, and no turn is ever completed. *)
Theorem malformed_server_url_ends_the_loop :
  let r := poll (R := cluster.over cluster.readme) 1 ":" "xxx"
             ["default"; "migrationlab"] initial in
  url.Parse (virtualmachines ":" "default") = inl "missing protocol scheme" /\
  r.1 = Panicked nil_dereference /\
  trace r.2 = [EvCall VirtualMachineCount (Some "default")] /\
  calls (trace r.2) <> schedule ["default"; "migrationlab"] /\
  (forall n : nat,
      (poll (R := cluster.over cluster.readme) (Datatypes.S n) ":" "xxx"
         ["default"; "migrationlab"] initial).1
      = Panicked nil_dereference).
Proof.
  split; [reflexivity |]. split; [reflexivity |]. split; [reflexivity |]. split.
  - vm_compute. discriminate.
  - intros n. reflexivity.
Qed.

(** ** The token *)




(** * More of [start.go] *)

(** ** Requests that cannot be built *)

Lemma panic_after {A} reason (s : State) :
  @panic A reason s = (Panicked reason, after [] [] 0 s).
Proof. unfold panic. rewrite after_nil. reflexivity. Qed.


Section Unbuildable.
Context {R : Runtime}.

Lemma count_unbuildable serverURL token namespace err (s : State) :
  url_Parse (virtualmachines serverURL namespace) = inl err ->
  exportVirtualMachineCount serverURL token namespace s
  = (Panicked nil_dereference,
     after [EvCall VirtualMachineCount (Some namespace)]
       [fmt.Printf "Fetching virtual machine count for namespace %s...\n"
          [fmt.S namespace]]
       0 s).
Proof.
  intros Hurl. unfold exportVirtualMachineCount, NewRequest.
  fold (virtualmachines serverURL namespace). rewrite Hurl.
  run_as.
  - run_step; [run_step |]. run_step; [run_step |]. apply panic_after.
  - cbn [app Nat.add]. auto.
Qed.

Lemma namesAndStatuses_unbuildable serverURL token namespace err (s : State) :
  url_Parse (virtualmachines serverURL namespace) = inl err ->
  exportVirtualMachineNamesAndStatuses serverURL token namespace s
  = (Panicked nil_dereference,
     after [EvCall VirtualMachineNamesAndStatuses (Some namespace)]
       [fmt.Printf "Fetching virtual machine names and statuses for namespace %s...\n"
          [fmt.S namespace]]
       0 s).
Proof.
  intros Hurl. unfold exportVirtualMachineNamesAndStatuses, NewRequest.
  fold (virtualmachines serverURL namespace). rewrite Hurl.
  run_as.
  - run_step; [run_step |]. run_step; [run_step |]. apply panic_after.
  - cbn [app Nat.add]. auto.
Qed.

Lemma migrationTime_unbuildable serverURL token err (s : State) :
  url_Parse (migrations serverURL) = inl err ->
  exportVirtualMachineMigrationTime serverURL token s
  = (Panicked nil_dereference,
     after [EvCall VirtualMachineMigrationTime None] [] 0 s).
Proof.
  intros Hurl. unfold exportVirtualMachineMigrationTime, NewRequest.
  fold (migrations serverURL). rewrite Hurl.
  run_as.
  - run_step; [run_step |]. apply panic_after.
  - cbn [app Nat.add]. auto.
Qed.

(** X1.  A routine whose request cannot be built panics: when
    [http.NewRequest] fails on the routine's URL, the routine does not
    return the error but dereferences the nil request (lines 159, 244,
    303).  By then it has printed at most its "Fetching" line; it has made
    no round trip and changed no series. *)
Theorem unbuildable_request_panics
    (serverURL token namespace : string) (err : error) (s : State) :
  (url_Parse (virtualmachines serverURL namespace) = inl err ->
   let count := exportVirtualMachineCount serverURL token namespace s in
   let status := exportVirtualMachineNamesAndStatuses serverURL token namespace s in
   (count.1 = Panicked nil_dereference /\
    roundTrips count.2 = roundTrips s /\
    (forall m, series m count.2 = series m s) /\
    stdout count.2
    = stdout s ++ [fmt.Printf "Fetching virtual machine count for namespace %s...\n"
                     [fmt.S namespace]]) /\
   (status.1 = Panicked nil_dereference /\
    roundTrips status.2 = roundTrips s /\
    (forall m, series m status.2 = series m s) /\
    stdout status.2
    = stdout s ++ [fmt.Printf
                     "Fetching virtual machine names and statuses for namespace %s...\n"
                     [fmt.S namespace]])) /\
  (url_Parse (migrations serverURL) = inl err ->
   let time := exportVirtualMachineMigrationTime serverURL token s in
   time.1 = Panicked nil_dereference /\
   roundTrips time.2 = roundTrips s /\
   (forall m, series m time.2 = series m s) /\
   stdout time.2 = stdout s).
Proof.
  split.
  - intros Hurl count status. subst count status.
    rewrite (count_unbuildable _ _ _ _ _ Hurl),
      (namesAndStatuses_unbuildable _ _ _ _ _ Hurl).
    cbn [fst snd roundTrips stdout after].
    repeat split; try apply Nat.add_0_r; intros []; reflexivity.
  - intros Hurl time. subst time.
    rewrite (migrationTime_unbuildable _ _ _ _ Hurl).
    cbn [fst snd roundTrips stdout after].
    repeat split; try apply Nat.add_0_r; try apply app_nil_r; intros []; reflexivity.
Qed.

End Unbuildable.


(** ** Round trips and turns *)












Section Turns.
Context {R : Runtime}.










End Turns.


(** ** What the routines write *)

Lemma emits_impl {A} (P P' : Event -> Prop) (c : Go A) :
  (forall e, P e -> P' e) -> emits P c -> emits P' c.
Proof.
  intros Himpl Hc s. destruct (Hc s) as (evs & out & n & Hs & Hall).
  exists evs, out, n. split; [exact Hs | exact (Forall_impl _ _ _ Hall Himpl)].
Qed.

(** A series that no event of a run may write reads after the run what it
    read before. *)
Lemma emits_untouched {A} (P : Event -> Prop) (c : Go A) (m : prometheus.Metric)
    (lvs : list string) (s : State) :
  emits P c -> (forall v, ~ P (EvSet m lvs v)) ->
  series m (c s).2 !! lvs = series m s !! lvs.
Proof.
  intros Hc Hnot. destruct (Hc s) as (evs & out & n & -> & Hall).
  rewrite series_after. apply replay_untouched. intros v Hin.
  rewrite Forall_forall in Hall. exact (Hnot v (Hall _ Hin)).
Qed.


Lemma replay_silent (m : prometheus.Metric) (evs : list Event)
    (g : gmap (list string) Q) :
  Forall silent evs -> replay m evs g = g.
Proof.
  intros Hall. revert g. induction Hall as [| e evs He _ IH]; intros g; [reflexivity |].
  rewrite replay_cons, IH. destruct e; [reflexivity | destruct He | reflexivity].
Qed.



Section Writes.
Context {R : Runtime}.

Lemma count_produces serverURL token namespace :
  emits (Produces VirtualMachineCount (Some namespace))
    (exportVirtualMachineCount serverURL token namespace).
Proof. unfold exportVirtualMachineCount. repeat emits_step; constructor. Qed.

Lemma namesAndStatuses_produces serverURL token namespace :
  emits (Produces VirtualMachineNamesAndStatuses (Some namespace))
    (exportVirtualMachineNamesAndStatuses serverURL token namespace).
Proof. unfold exportVirtualMachineNamesAndStatuses. repeat emits_step; constructor. Qed.

Lemma migrationTime_produces serverURL token :
  emits (Produces VirtualMachineMigrationTime None)
    (exportVirtualMachineMigrationTime serverURL token).
Proof.
  unfold exportVirtualMachineMigrationTime, migrationTimeOf.
  repeat emits_step; constructor.
Qed.

Lemma emits_Produced {A} f namespace (c : Go A) :
  emits (Produces f namespace) c -> emits Produced c.
Proof. apply emits_impl. intros e He. left. eauto. Qed.

Lemma run_produces (op : Operation) : emits Produced (run op).
Proof.
  assert (Hcycle : forall serverURL token namespaceList,
             emits Produced (cycle serverURL token namespaceList)).
  { intros serverURL token namespaceList. unfold cycle.
    apply emits_bind; [| intros _; apply emits_bind; [| intros _]].
    - apply emits_range; intros namespace.
      apply emits_bind;
        [apply (emits_Produced _ _ _ (count_produces _ _ _)) | intros _].
      apply emits_bind;
        [apply (emits_Produced _ _ _ (namesAndStatuses_produces _ _ _))
        | intros _].
      apply emits_ret.
    - apply (emits_Produced _ _ _ (migrationTime_produces _ _)).
    - apply emits_Sleep. right. eauto. }
  destruct op as [serverURL token namespace | serverURL token namespace
                 | serverURL token | n serverURL token namespaceList]; cbn [run].
  - apply emits_bind; [| intros _; apply emits_ret].
    apply (emits_Produced _ _ _ (count_produces _ _ _)).
  - apply emits_bind; [| intros _; apply emits_ret].
    apply (emits_Produced _ _ _ (namesAndStatuses_produces _ _ _)).
  - apply emits_bind; [| intros _; apply emits_ret].
    apply (emits_Produced _ _ _ (migrationTime_produces _ _)).
  - induction n as [| n IH]; cbn [poll].
    + apply emits_ret.
    + apply emits_bind; [apply Hcycle | intros _; exact IH].
Qed.

(** X5.  Each routine writes only its own series, however its call ends
    (return, error or panic).  The count routine leaves every series but
    [virtual_machine_count_total{namespace}] as it was; the status routine
    leaves every series but those of [virtual_machine_status] whose first
    label is its namespace; the migration routine leaves every series of
    the three other collectors. *)
Theorem routines_write_only_their_series
    (serverURL token namespace : string) (s : State) :
  (forall m lvs,
      (m, lvs) <> (prometheus.vmCount, [namespace]) ->
      series m (exportVirtualMachineCount serverURL token namespace s).2 !! lvs
      = series m s !! lvs) /\
  (forall m lvs,
      m <> prometheus.vmStatus \/
      (forall name printableStatus, lvs <> [namespace; name; printableStatus]) ->
      series m (exportVirtualMachineNamesAndStatuses serverURL token namespace s).2 !! lvs
      = series m s !! lvs) /\
  (forall m lvs,
      m <> prometheus.migrationTime ->
      series m (exportVirtualMachineMigrationTime serverURL token s).2 !! lvs
      = series m s !! lvs).
Proof.
  split; [| split]; intros m lvs Hother.
  - apply (emits_untouched _ _ _ _ _ (count_produces serverURL token namespace)).
    intros v Hp. inversion Hp; subst. apply Hother. reflexivity.
  - apply (emits_untouched _ _ _ _ _ (namesAndStatuses_produces serverURL token namespace)).
    intros v Hp. inversion Hp; subst. destruct Hother as [Hm | Hlvs]; [congruence |].
    exact (Hlvs _ _ eq_refl).
  - apply (emits_untouched _ _ _ _ _ (migrationTime_produces serverURL token)).
    intros v Hp. inversion Hp; subst. congruence.
Qed.

(** X6.  No operation removes a series from any collector: a series that
    exists before a routine call or any number of turns of the loop exists
    after it.  So the count of a namespace that is no longer polled
    successfully and the duration of a migration that is gone stay
    exposed. *)
Theorem no_series_is_ever_removed
    (op : Operation) (s : State) (m : prometheus.Metric) (lvs : list string) :
  is_Some (series m s !! lvs) -> is_Some (series m (run op s).2 !! lvs).
Proof.
  intros Hsome. destruct (run_produces op s) as (evs & out & n & -> & _).
  rewrite series_after. apply replay_keeps_series. exact Hsome.
Qed.



Lemma emits_Do_bind {A} (P : Event -> Prop) (req : http.Request)
    (k : error + http.Response Bytes -> Go A) :
  (forall n, emits P (k (client_Do n req))) -> emits P (Do req ≫= k).
Proof.
  intros Hk s. unfold mbind, Go_bind, bind. rewrite Do_after.
  destruct (Hk (roundTrips s) (after [] [] 1 s)) as (evs & out & n & Hs & Hall).
  exists evs, out, (1 + n)%nat. rewrite Hs, after_after. auto.
Qed.

Section Unavailable.
Hypothesis down : unavailable.

Lemma count_silent serverURL token namespace :
  emits silent (exportVirtualMachineCount serverURL token namespace).
Proof.
  unfold exportVirtualMachineCount.
  apply emits_bind; [apply emits_called; exact I | intros _].
  apply emits_bind; [apply emits_Printf | intros _].
  destruct (NewRequest _ _) as [err | req]; [apply emits_panic |].
  apply emits_bind; [apply emits_Printf | intros _].
  apply emits_Do_bind. intros n.
  match goal with |- context [client_Do n ?req] => pose proof (down n req) as Hdown end.
  destruct (client_Do n _) as [err | resp]; [apply emits_ret |].
  destruct (Z.eqb_spec (http.StatusCode resp) http.StatusOK) as [Hok | _];
    [contradiction | apply emits_ret].
Qed.

Lemma namesAndStatuses_silent serverURL token namespace :
  emits silent (exportVirtualMachineNamesAndStatuses serverURL token namespace).
Proof.
  unfold exportVirtualMachineNamesAndStatuses.
  apply emits_bind; [apply emits_called; exact I | intros _].
  apply emits_bind; [apply emits_Printf | intros _].
  destruct (NewRequest _ _) as [err | req]; [apply emits_panic |].
  apply emits_bind; [apply emits_Printf | intros _].
  apply emits_Do_bind. intros n.
  match goal with |- context [client_Do n ?req] => pose proof (down n req) as Hdown end.
  destruct (client_Do n _) as [err | resp]; [apply emits_ret |].
  destruct (Z.eqb_spec (http.StatusCode resp) http.StatusOK) as [Hok | _];
    [contradiction | apply emits_ret].
Qed.

Lemma migrationTime_silent serverURL token :
  emits silent (exportVirtualMachineMigrationTime serverURL token).
Proof.
  unfold exportVirtualMachineMigrationTime.
  apply emits_bind; [apply emits_called; exact I | intros _].
  destruct (NewRequest _ _) as [err | req]; [apply emits_panic |].
  apply emits_bind; [apply emits_Printf | intros _].
  apply emits_Do_bind. intros n.
  match goal with |- context [client_Do n ?req] => pose proof (down n req) as Hdown end.
  destruct (client_Do n _) as [err | resp]; [apply emits_ret |].
  apply emits_bind; [apply emits_Printf | intros _].
  destruct (Z.eqb_spec (http.StatusCode resp) http.StatusOK) as [Hok | _];
    [contradiction | apply emits_ret].
Qed.

Lemma poll_silent n serverURL token namespaceList :
  emits silent (poll n serverURL token namespaceList).
Proof.
  induction n as [| n IH]; cbn [poll]; [apply emits_ret |].
  apply emits_bind; [| intros _; exact IH]. unfold cycle.
  apply emits_bind; [| intros _; apply emits_bind; [| intros _]].
  - apply emits_range; intros namespace.
    apply emits_bind; [apply count_silent | intros _].
    apply emits_bind; [apply namesAndStatuses_silent | intros _].
    apply emits_ret.
  - apply migrationTime_silent.
  - apply emits_Sleep. exact I.
Qed.

End Unavailable.

(** X8.  While the upstream has nothing to give (every round trip fails
    in the transport or is answered with a status other than 200), the
    loop changes no metric: after any number of turns, from any state,
    every series of every collector reads what it read before, and no new
    series exists.  The values exposed are those of the last successful
    fetches. *)
Theorem unavailable_upstream_changes_no_metric
    (n : nat) (serverURL token : string) (namespaceList : list string) (s : State) :
  unavailable ->
  forall m : prometheus.Metric,
    series m (poll n serverURL token namespaceList s).2 = series m s.
Proof.
  intros Hdown m.
  destruct (poll_silent Hdown n serverURL token namespaceList s)
    as (evs & out & k & -> & Hall).
  rewrite series_after. apply replay_silent, Hall.
Qed.

End Writes.


(** ** The map of names and statuses *)


Section NamesAndStatuses.
Context {R : Runtime}.


End NamesAndStatuses.

(** ** What a failed fetch prints *)

Section Unlogged.
Context {R : Runtime}.

(** X10.  A failed fetch is not logged.  When the fetch of a routine
    fails after its request was built, the count and the status routine
    have printed their two progress lines and nothing else, and the
    migration routine its request line and, if there was an answer, the
    status code: the error goes to the caller only, and the loop drops
    what the routines return. *)
Theorem failed_fetch_is_not_logged
    (serverURL token namespace u : string) (s : State) (err : error) :
  (url_Parse (virtualmachines serverURL namespace) = inr u ->
   Fails json_Unmarshal_count (client_Do (roundTrips s) (get u token)) err ->
   stdout (exportVirtualMachineCount serverURL token namespace s).2
   = stdout s
     ++ [fmt.Printf "Fetching virtual machine count for namespace %s...\n"
           [fmt.S namespace];
         fmt.Printf "Request URL: %s\n" [fmt.S u]]) /\
  (url_Parse (virtualmachines serverURL namespace) = inr u ->
   Fails json_Unmarshal_vmList (client_Do (roundTrips s) (get u token)) err ->
   stdout (exportVirtualMachineNamesAndStatuses serverURL token namespace s).2
   = stdout s
     ++ [fmt.Printf "Fetching virtual machine names and statuses for namespace %s...\n"
           [fmt.S namespace];
         fmt.Printf "Request URL: %s\n" [fmt.S u]]) /\
  (url_Parse (migrations serverURL) = inr u ->
   Fails json_Unmarshal_migrations (client_Do (roundTrips s) (get u token)) err ->
   stdout (exportVirtualMachineMigrationTime serverURL token s).2
   = stdout s
     ++ fmt.Printf "Request URL: %s\n" [fmt.S u]
        :: match client_Do (roundTrips s) (get u token) with
           | inl _ => []
           | inr resp =>
               [fmt.Printf "Response status code when calling API for migrations: %d\n"
                  [fmt.D (http.StatusCode resp)]]
           end).
Proof.
  split; [| split].
  - intros Hurl Hfails. unfold exportVirtualMachineCount. go.
    fold (virtualmachines serverURL namespace). rewrite Hurl. go.
    fold (get u token). cbn [roundTrips with_stdout with_trace].
    fails_cases Hfails;
      cbn [snd stdout with_stdout with_trace with_roundTrips http.URL];
      rewrite <- app_assoc; reflexivity.
  - intros Hurl Hfails. unfold exportVirtualMachineNamesAndStatuses. go.
    fold (virtualmachines serverURL namespace). rewrite Hurl. go.
    fold (get u token). cbn [roundTrips with_stdout with_trace].
    fails_cases Hfails;
      cbn [snd stdout with_stdout with_trace with_roundTrips http.URL];
      rewrite <- app_assoc; reflexivity.
  - intros Hurl Hfails. unfold exportVirtualMachineMigrationTime. go.
    fold (migrations serverURL). rewrite Hurl. go.
    fold (get u token). cbn [roundTrips with_stdout with_trace].
    fails_cases Hfails;
      cbn [snd stdout with_stdout with_trace with_roundTrips http.URL];
      rewrite <- ?app_assoc; reflexivity.
Qed.

End Unlogged.

(** ** Starting *)

Lemma Split_nonempty (s : string) (sep : ascii) : strings.Split s sep <> [].
Proof.
  destruct s as [| c rest]; cbn [strings.Split]; [discriminate |].
  destruct (Ascii.eqb c sep); [discriminate |].
  destruct (strings.Split rest sep); discriminate.
Qed.

(** Joining the pieces with the separator gives the string back. *)
Lemma Split_concat (s : string) (sep : ascii) :
  String.concat (String sep EmptyString) (strings.Split s sep) = s.
Proof.
  induction s as [| c rest IH]; cbn [strings.Split]; [reflexivity |].
  pose proof (Split_nonempty rest sep) as Hne.
  destruct (Ascii.eqb_spec c sep) as [-> | Hc].
  - destruct (strings.Split rest sep) as [| w ws]; [contradiction |].
    change (String.concat (String sep "") ("" :: w :: ws))
      with (String sep (String.concat (String sep "") (w :: ws))).
    rewrite IH. reflexivity.
  - destruct (strings.Split rest sep) as [| w ws]; [contradiction |].
    destruct ws as [| w' ws].
    + cbn [String.concat] in *. rewrite IH. reflexivity.
    + change (String.concat (String sep "") (String c w :: w' :: ws))
        with (String c (String.concat (String sep "") (w :: w' :: ws))).
      rewrite IH. reflexivity.
Qed.

(** No piece holds the separator. *)
Lemma Split_pieces (s : string) (sep : ascii) (piece : string) :
  piece ∈ strings.Split s sep -> occurs sep piece = false.
Proof.
  revert piece. induction s as [| c rest IH]; intros piece; cbn [strings.Split].
  - intros Hin. apply list_elem_of_singleton in Hin as ->. reflexivity.
  - destruct (Ascii.eqb_spec c sep) as [-> | Hc].
    + intros Hin. apply elem_of_cons in Hin as [-> | Hin]; [reflexivity | auto].
    + pose proof (Split_nonempty rest sep) as Hne.
      destruct (strings.Split rest sep) as [| w ws]; [contradiction |].
      intros Hin. apply elem_of_cons in Hin as [-> | Hin].
      * cbn [occurs]. apply Ascii.eqb_neq in Hc. rewrite Hc. apply IH. left.
      * apply IH. right. exact Hin.
Qed.

Section Starting.
Context {R : Runtime}.

(** After a registration block: the collector was accepted and the rest of
    [Run] follows, or the process crashed, or it exited. *)
Lemma register_cases (P : Start -> Prop) (m : prometheus.Metric)
    (var : string) (next : list fmt.line -> list prometheus.Metric -> Start)
    (out : list fmt.line) (reg : list prometheus.Metric) :
  (accepted m -> forall reg', P (next out reg')) ->
  P (mkStart out reg None (Crash "interface conversion")) ->
  (forall err, P (mkStart (out ++ [registrationError var err]) reg None (Exit 1))) ->
  P (register m var next out reg).
Proof.
  intros Hnext Hcrash Hexit. unfold register, accepted in *.
  destruct (registry_Register m) as [| existing | err].
  - apply Hnext. auto.
  - destruct m, existing; cbn [prometheus.kind prometheus.Kind_eqb];
      first [exact Hcrash | apply Hnext; auto].
  - apply Hexit.
Qed.

(** The polling goroutine is started only when the three flags are given
    and the four collectors accepted, and then with the pieces of
    [--namespaces]. *)
Lemma poller_started (token serverURL namespaces : string) (l : list string) :
  poller (startCmd token serverURL namespaces) = Some l ->
  token <> "" /\ serverURL <> "" /\ namespaces <> "" /\
  l = strings.Split namespaces "," /\
  forall m, accepted m.
Proof.
  unfold startCmd.
  destruct (String.eqb_spec token "") as [-> | Ht]; [discriminate |].
  destruct (String.eqb_spec serverURL "") as [-> | Hs]; [discriminate |].
  destruct (String.eqb_spec namespaces "") as [-> | Hn]; [discriminate |].
  cbn [orb]. cbn zeta.
  apply (register_cases
           (fun st => poller st = Some l -> _ /\ _ /\ _ /\ _ /\ forall m, accepted m));
    [intros H1 reg1 | discriminate | discriminate].
  apply (register_cases
           (fun st => poller st = Some l -> _ /\ _ /\ _ /\ _ /\ forall m, accepted m));
    [intros H2 reg2 | discriminate | discriminate].
  apply (register_cases
           (fun st => poller st = Some l -> _ /\ _ /\ _ /\ _ /\ forall m, accepted m));
    [intros H3 reg3 | discriminate | discriminate].
  apply (register_cases
           (fun st => poller st = Some l -> _ /\ _ /\ _ /\ _ /\ forall m, accepted m));
    [intros H4 reg4 | discriminate | discriminate].
  destruct http_ListenAndServe; cbn [poller]; intros [= <-];
    (repeat split; try assumption; intros []; assumption).
Qed.

(** X11.  What [start] needs before it polls.  If one of [--token],
    [--server-url] and [--namespaces] is empty or missing, the command
    prints the error line and the usage, registers nothing, starts no
    polling goroutine and exits with code 1.  Conversely the polling
    goroutine is only ever started with all three flags non-empty and every
    collector accepted by the registry, and it is started with the pieces
    of [--namespaces]. *)
Theorem start_polls_only_after_its_checks (token serverURL namespaces : string) :
  (token = "" \/ serverURL = "" \/ namespaces = "" ->
   startCmd token serverURL namespaces
   = mkStart
       [fmt.Println "Error: --token, --server-url, and --namespaces are required parameters";
        fmt.Usage]
       [] None (Exit 1)) /\
  (forall l : list string,
      poller (startCmd token serverURL namespaces) = Some l ->
      token <> "" /\ serverURL <> "" /\ namespaces <> "" /\
      l = strings.Split namespaces "," /\
      forall m, accepted m).
Proof.
  split; [| apply poller_started].
  intros Hmissing. unfold startCmd.
  destruct Hmissing as [-> | [-> | ->]]; cbn [String.eqb orb];
    rewrite ?orb_true_r; reflexivity.
Qed.

(** X12.  The namespace list is the flag, cut at the commas and at nothing
    else.  When the polling goroutine is started, the namespaces it polls,
    joined with commas, are the [--namespaces] flag as given: there is at
    least one, none holds a comma, and nothing is trimmed or dropped, so
    an empty piece (from two commas in a row, or a comma at an end) and a
    piece with blanks are polled as namespaces of their own. *)
Theorem namespace_list_is_the_flag_cut_at_commas
    (token serverURL namespaces : string) (namespaceList : list string) :
  poller (startCmd token serverURL namespaces) = Some namespaceList ->
  String.concat "," namespaceList = namespaces /\
  namespaceList <> [] /\
  (forall namespace, namespace ∈ namespaceList -> occurs "," namespace = false).
Proof.
  intros Hpoller. destruct (poller_started _ _ _ _ Hpoller) as (_ & _ & _ & -> & _).
  split; [apply Split_concat |]. split; [apply Split_nonempty |].
  intros namespace. apply Split_pieces.
Qed.

(** X13.  A start on a registry that takes the four collectors, as the
    fresh registry of [startCmd] does.  With the three flags given, the
    four collectors are registered in the order of the source, the polling
    goroutine is started, and the main goroutine prints the greeting and
    the two lines about the exporter; it then serves, or, when
    [http.ListenAndServe] returns an error (the port cannot be bound),
    prints that error as its last line and exits with code 1, which ends
    the polling goroutine with it. *)
Theorem start_on_a_fresh_registry (token serverURL namespaces : string) :
  token <> "" -> serverURL <> "" -> namespaces <> "" ->
  (forall m, registry_Register m = prometheus.Registered) ->
  let start := startCmd token serverURL namespaces in
  let namespaceList := strings.Split namespaces "," in
  registry start
  = [prometheus.vmStatus; prometheus.failedMigrations;
     prometheus.migrationTime; prometheus.vmCount] /\
  poller start = Some namespaceList /\
  match http_ListenAndServe with
  | None =>
      printed start
      = greeting serverURL namespaceList
        ++ [fmt.Println "Prometheus exporter initialized successfully.";
            fmt.Println "Starting Prometheus exporter on :8080"] /\
      ending start = Serving
  | Some err =>
      printed start
      = greeting serverURL namespaceList
        ++ [fmt.Println "Prometheus exporter initialized successfully.";
            fmt.Println "Starting Prometheus exporter on :8080";
            fmt.Printf "Error starting Prometheus exporter: %v\n" [fmt.E err]] /\
      ending start = Exit 1
  end.
Proof.
  intros Ht Hs Hn Hfresh start namespaceList. subst start namespaceList.
  unfold startCmd. rewrite (flags_given _ _ _ Ht Hs Hn). cbn zeta.
  unfold register. rewrite !Hfresh.
  destruct http_ListenAndServe; repeat split.
Qed.

End Starting.

(** ** The migrations document *)

Section Document.
Context {R : Runtime}.

Lemma setsOf_length (namespace : string) (vms : list MigrationVM) :
  (length (flat_map (setsOf namespace) vms) <= length vms)%nat.
Proof.
  induction vms as [| vm vms IH]; cbn [flat_map length]; [lia |].
  rewrite length_app. unfold setsOf at 1.
  destruct (durationOf vm); cbn [length]; lia.
Qed.

Lemma setsOfMigrations_length (Items : list Migration) :
  (length (setsOfMigrations Items) <= length (flat_map Status_Vms Items))%nat.
Proof.
  unfold setsOfMigrations, setsOfMigration.
  induction Items as [| migration Items IH]; cbn [flat_map length]; [lia |].
  rewrite !length_app.
  pose proof (setsOf_length (Status_Namespace migration) (Status_Vms migration)).
  lia.
Qed.

(** X14.  The migration routine writes what the document says and leaves
    the rest.  When the migrations document is fetched and decoded, the
    routine returns [(true, nil)]; its gauge writes are one per entry whose
    two timestamps parse, in document order, and no others, so at most one
    per entry and none for an empty document; and a series that no such
    entry labels reads afterwards what it read before: the duration of a
    migration that has left the document stays as it was. *)
Theorem migration_writes_follow_the_document
    (serverURL token u : string) (s : State)
    (resp : http.Response Bytes) (body : Bytes) (Items : list Migration) :
  url_Parse (migrations serverURL) = inr u ->
  client_Do (roundTrips s) (get u token) = inr resp ->
  http.StatusCode resp = http.StatusOK ->
  http.Body resp = inr body ->
  json_Unmarshal_migrations body = inr Items ->
  let r := exportVirtualMachineMigrationTime serverURL token s in
  r.1 = Returned (true, None) /\
  trace r.2
  = trace s ++ EvCall VirtualMachineMigrationTime None :: setsOfMigrations Items /\
  (length (setsOfMigrations Items)
   <= length (flat_map Status_Vms Items))%nat /\
  (forall lvs : list string,
      (forall migration vm d,
          migration ∈ Items -> vm ∈ Status_Vms migration ->
          durationOf vm = Some d ->
          lvs <> [Status_Namespace migration; Name vm]) ->
      migrationTimeMetric r.2 !! lvs = migrationTimeMetric s !! lvs).
Proof.
  intros Hurl Hdo Hstatus Hbody Hdecode r. subst r.
  destruct (migrationTime_runs _ _ _ _ _ _ _ Hurl Hdo Hstatus Hbody Hdecode)
    as [out ->].
  cbn [fst snd trace migrationTimeMetric after].
  split; [reflexivity |]. split; [reflexivity |]. split.
  - apply setsOfMigrations_length.
  - intros lvs Hnot. rewrite replay_cons. cbn [apply].
    apply replay_untouched. intros v Hin.
    unfold setsOfMigrations, setsOfMigration in Hin.
    apply list_elem_of_In, in_flat_map in Hin as (migration & Hmig & Hin).
    apply in_flat_map in Hin as (vm & Hvm & Hin).
    unfold setsOf in Hin. destruct (durationOf vm) as [d |] eqn:Hd; [| destruct Hin].
    destruct Hin as [[= <- <-] | []].
    apply (Hnot migration vm d); [apply list_elem_of_In; exact Hmig
                                 | apply list_elem_of_In; exact Hvm
                                 | exact Hd | reflexivity].
Qed.

End Document.


(** * More of [start.go], on clusters *)

(** X1 on a server URL without a scheme: the three routines panic. *)
Lemma colon_server_url_panics :
  (exportVirtualMachineCount (R := cluster.over cluster.readme)
     ":" "xxx" "default" initial).1 = Panicked nil_dereference /\
  (exportVirtualMachineNamesAndStatuses (R := cluster.over cluster.readme)
     ":" "xxx" "default" initial).1 = Panicked nil_dereference /\
  (exportVirtualMachineMigrationTime (R := cluster.over cluster.readme)
     ":" "xxx" initial).1 = Panicked nil_dereference.
Proof.
  destruct (unbuildable_request_panics (R := cluster.over cluster.readme)
              ":" "xxx" "default" "missing protocol scheme" initial)
    as [Hvms Htime].
  destruct (Hvms eq_refl) as ((Hcount & _) & (Hstatus & _)).
  destruct (Htime eq_refl) as (Hmig & _).
  split; [exact Hcount | split; [exact Hstatus | exact Hmig]].
Defined.




(** X6 on an upstream that went away: the count of [migrationlab] stays
    exposed after turns that fetch nothing. *)
Lemma readme_counts_survive_an_outage :
  let up := (poll (R := cluster.over cluster.readme) 1 cluster.server "xxx"
               ["default"; "migrationlab"] initial).2 in
  is_Some (series prometheus.vmCount
             (run (R := cluster.over [])
                (Poll 2 cluster.server "xxx" ["default"; "migrationlab"]) up).2
           !! ["migrationlab"]).
Proof.
  apply (no_series_is_ever_removed (R := cluster.over [])).
  exists 1%Q. vm_compute. reflexivity.
Defined.

(** X8 on the same outage: the durations read after two turns against the
    lost upstream what they read before them. *)
Lemma outage_changes_no_metric :
  let up := (poll (R := cluster.over cluster.readme) 1 cluster.server "xxx"
               ["default"; "migrationlab"] initial).2 in
  series prometheus.migrationTime
    (poll (R := cluster.over []) 2 cluster.server "xxx"
       ["default"; "migrationlab"] up).2
  = series prometheus.migrationTime up.
Proof.
  apply (unavailable_upstream_changes_no_metric (R := cluster.over [])).
  intros n req. cbn. discriminate.
Defined.


(** X10 on an upstream that is down: the 503 and the refused connection
    are printed nowhere. *)
Lemma down_cluster_prints_no_error :
  stdout (exportVirtualMachineCount (R := cluster.over cluster.down)
            cluster.server "xxx" "default" initial).2
  = [fmt.Printf "Fetching virtual machine count for namespace %s...\n" [fmt.S "default"];
     fmt.Printf "Request URL: %s\n" [fmt.S (virtualmachines cluster.server "default")]] /\
  stdout (exportVirtualMachineMigrationTime (R := cluster.over cluster.down)
            cluster.server "xxx" initial).2
  = [fmt.Printf "Request URL: %s\n" [fmt.S (migrations cluster.server)]].
Proof.
  split.
  - destruct (failed_fetch_is_not_logged (R := cluster.over cluster.down)
                cluster.server "xxx" "default"
                (virtualmachines cluster.server "default") initial
                "unexpected status code: 503")
      as (Hcount & _).
    exact (Hcount eq_refl
             (status_not_ok (R := cluster.over cluster.down) _
                (http.mkResponse 503 (inr None)) ltac:(discriminate))).
  - destruct (failed_fetch_is_not_logged (R := cluster.over cluster.down)
                cluster.server "xxx" "default"
                (migrations cluster.server) initial
                "dial tcp: connect: connection refused")
      as (_ & _ & Htime).
    exact (Htime eq_refl (transport_fails (R := cluster.over cluster.down) _ _)).
Defined.

(** X11 on a start without a server URL. *)
Lemma start_without_server_url :
  startCmd (R := cluster.over cluster.readme) "xxx" "" "migrationlab,default"
  = mkStart
      [fmt.Println "Error: --token, --server-url, and --namespaces are required parameters";
       fmt.Usage]
      [] None (Exit 1).
Proof.
  apply (proj1 (start_polls_only_after_its_checks (R := cluster.over cluster.readme)
                  "xxx" "" "migrationlab,default")).
  right. left. reflexivity.
Defined.

(** X12 on flags with a blank and two commas in a row: the pieces are
    polled as they are. *)
Lemma untrimmed_namespaces :
  poller (startCmd (R := cluster.over cluster.readme)
            "xxx" cluster.server "migrationlab, default,,")
  = Some ["migrationlab"; " default"; ""; ""] /\
  String.concat "," ["migrationlab"; " default"; ""; ""] = "migrationlab, default,,".
Proof.
  split; [reflexivity |].
  apply (namespace_list_is_the_flag_cut_at_commas (R := cluster.over cluster.readme)
           "xxx" cluster.server "migrationlab, default,,"
           ["migrationlab"; " default"; ""; ""] eq_refl).
Defined.

(** X13 on a port that is taken: the goroutine was started, the error is
    the last line, the exit code is 1. *)
Lemma taken_port_exits :
  let start := startCmd (R := reference (cluster.upstream cluster.readme)
                                cluster.fresh cluster.taken)
                 "xxx" cluster.server "migrationlab,default" in
  poller start = Some ["migrationlab"; "default"] /\
  last (printed start)
  = Some (fmt.Printf "Error starting Prometheus exporter: %v\n"
            [fmt.E "listen tcp :8080: bind: address already in use"]) /\
  ending start = Exit 1.
Proof.
  destruct (start_on_a_fresh_registry
              (R := reference (cluster.upstream cluster.readme)
                      cluster.fresh cluster.taken)
              "xxx" cluster.server "migrationlab,default"
              ltac:(discriminate) ltac:(discriminate) ltac:(discriminate)
              (fun m => eq_refl))
    as (_ & Hpoller & Hprinted & Hending).
  split; [exact Hpoller |]. split; [| exact Hending].
  rewrite Hprinted. reflexivity.
Defined.

(** X14 on a migration with an entry still running: two writes for three
    entries, and the series of a migration that is not in the document is
    not touched. *)
Lemma running_document_writes :
  let r := exportVirtualMachineMigrationTime (R := cluster.over cluster.running)
             cluster.server "xxx" initial in
  length (calls (trace r.2)) = 1%nat /\
  length (trace r.2) = 3%nat /\
  migrationTimeMetric r.2 !! ["migrationlab"; "gone"] = None.
Proof.
  destruct (migration_writes_follow_the_document (R := cluster.over cluster.running)
              cluster.server "xxx" (migrations cluster.server) initial
              (http.mkResponse 200 (inr (Some cluster.running_migrations)))
              (Some cluster.running_migrations)
              [mkMigration "migrationlab"
                 [mkMigrationVM "first" "2025-05-20T10:00:00Z" "2025-05-20T10:00:30Z";
                  mkMigrationVM "pending" "2025-05-20T10:00:00Z" "";
                  mkMigrationVM "last" "2025-05-20T10:00:00Z" "2025-05-20T10:01:00Z"]]
              eq_refl eq_refl eq_refl eq_refl eq_refl)
    as (_ & Htrace & _ & Hkept).
  split; [rewrite Htrace; reflexivity |]. split; [rewrite Htrace; reflexivity |].
  rewrite Hkept; [reflexivity |].
  intros migration vm d Hmig Hvm _.
  apply list_elem_of_singleton in Hmig as ->.
  repeat (apply elem_of_cons in Hvm as [-> | Hvm]; [discriminate |]).
  inversion Hvm.
Defined.
